(** * PowerNode Excel analysis server: a shallow embedding

    The development follows [src/mcp-servers/excel-python-server.py]:
    the workbook object model the analyzer walks, the three scan passes
    and their composition ([ExcelAnalyzer]), the tool catalog ([TOOLS]),
    the JSON-RPC dispatcher ([handle_request]) and the read/dispatch/respond
    loop ([main]).

    Conventions.
    - Python [dict]s whose keys are fixed by the code are records; dicts
      decoded from the wire are [gmap string json].
    - A Python [for] loop that appends to a local list or updates a result
      dict is a left fold whose accumulator is that list or dict.
    - Exceptions are values of [exn]; code that can raise lives in
      [Result] (no file system involved) or in [M] (temporary files).
    - The library functions the server calls as black boxes ([json.loads],
      [base64.b64decode], [openpyxl.load_workbook], [repr]) are the fields
      of the record [libraries], a parameter of everything that calls them.
    - Text is held in its UTF-8 encoding; a path of a temporary file is the
      index of the name the system hands out. *)

From stdpp Require Import gmap strings list fin_maps pretty sorting.
From Stdlib Require Import ZArith Ascii.
From Stdlib.Strings Require Import Byte.

Set Default Proof Using "Type".

(** ** Python values *)

(** Values a cell can hold.  Numbers are integers here; floating point
    values and dates are outside the model. *)
Inductive pyvalue :=
| PyNone
| PyStr (s : string)
| PyInt (z : Z)
| PyBool (b : bool).

(** Truth value of [v] in a condition ([if v], [v and ...]). *)
Definition truthy (v : pyvalue) : bool :=
  match v with
  | PyNone => false
  | PyStr s => negb (String.eqb s "")
  | PyInt z => negb (z =? 0)%Z
  | PyBool b => b
  end.

(** [str(v)]. *)
Definition py_str (v : pyvalue) : string :=
  match v with
  | PyNone => "None"
  | PyStr s => s
  | PyInt z => pretty z
  | PyBool true => "True"
  | PyBool false => "False"
  end.

(** [c in s] for a one-character [c]. *)
Fixpoint str_contains (c : ascii) (s : string) : bool :=
  match s with
  | EmptyString => false
  | String a s' => if Ascii.eqb a c then true else str_contains c s'
  end.

(** A continuation byte of UTF-8 and its six payload bits. *)
Definition continuation (a : ascii) : option N :=
  let b := N_of_ascii a in
  if ((128 <=? b) && (b <? 192))%N then Some (b - 128)%N else None.

(** A byte that is not part of well-formed UTF-8, as the surrogateescape
    handler decodes it. *)
Definition surrogate (b : N) : N := (56320 + b)%N.

(** The characters of a text: the code points of its UTF-8 encoding.
    Overlong forms, encoded surrogates and values past U+10FFFF are not
    well formed. *)
Fixpoint code_points (s : string) : list N :=
  match s with
  | EmptyString => []
  | String a s1 =>
      let b0 := N_of_ascii a in
      let stray := surrogate b0 :: code_points s1 in
      if (b0 <? 128)%N then b0 :: code_points s1
      else if (b0 <? 194)%N then stray
      else
        match s1 with
        | EmptyString => stray
        | String a1 s2 =>
            match continuation a1 with
            | None => stray
            | Some c1 =>
                if (b0 <? 224)%N then
                  ((b0 - 192) * 64 + c1)%N :: code_points s2
                else
                  match s2 with
                  | EmptyString => stray
                  | String a2 s3 =>
                      match continuation a2 with
                      | None => stray
                      | Some c2 =>
                          if (b0 <? 240)%N then
                            let cp := (((b0 - 224) * 64 + c1) * 64 + c2)%N in
                            if ((2048 <=? cp)
                                && negb ((55296 <=? cp) && (cp <=? 57343)))%N
                            then cp :: code_points s3 else stray
                          else
                            match s3 with
                            | EmptyString => stray
                            | String a3 s4 =>
                                match continuation a3 with
                                | None => stray
                                | Some c3 =>
                                    let cp :=
                                      ((((b0 - 240) * 64 + c1) * 64 + c2) * 64
                                       + c3)%N in
                                    if ((b0 <? 248) && (65536 <=? cp)
                                        && (cp <=? 1114111))%N
                                    then cp :: code_points s4 else stray
                                end
                            end
                      end
                  end
            end
        end
  end.

(** [str.isspace] on one character: tab to carriage return, the four
    separators U+001C-U+001F, space, U+0085, U+00A0, U+1680,
    U+2000-U+200A, U+2028, U+2029, U+202F, U+205F and U+3000. *)
Definition is_space (c : N) : bool :=
  (((9 <=? c) && (c <=? 13)) || ((28 <=? c) && (c <=? 32))
   || (c =? 133) || (c =? 160) || (c =? 5760)
   || ((8192 <=? c) && (c <=? 8202))
   || (c =? 8232) || (c =? 8233) || (c =? 8239) || (c =? 8287)
   || (c =? 12288))%N.

(** [not line.strip()]: the line consists of white space only. *)
Definition strip_is_empty (line : string) : bool :=
  forallb is_space (code_points line).

(** ** Decoded JSON *)

(** What [json.loads] returns: [None], [bool], [int], [str], [list],
    [dict].  Numbers are integers here. *)
#[warnings="-register-all"]
Inductive json :=
| JNull
| JBool (b : bool)
| JNum (z : Z)
| JStr (s : string)
| JArr (l : list json)
| JObj (m : gmap string json).

(** [type(j).__name__]. *)
Definition type_name (j : json) : string :=
  match j with
  | JNull => "NoneType"
  | JBool _ => "bool"
  | JNum _ => "int"
  | JStr _ => "str"
  | JArr _ => "list"
  | JObj _ => "dict"
  end.

(** [j == s] for a string literal [s]. *)
Definition json_eq_str (j : json) (s : string) : bool :=
  match j with
  | JStr s' => String.eqb s' s
  | _ => false
  end.

(** ** Exceptions *)

(** The exceptions the server can raise, tagged by origin.  [UnknownTool]
    and [UnknownMethod] are the two [ValueError]s of [handle_request];
    [StageError] is the [TypeError] of writing [None] to the temporary
    file; [LoadError], [DecodeError] and [JSONDecodeError] carry the
    message of whatever the library raised. *)
Inductive exn :=
| AttributeError (type attr : string)
| KeyError (key : string)
| StageError
| LoadError (cause : string)
| DecodeError (cause : string)
| B64TypeError (type : string)
| JSONDecodeError (cause : string)
| UnknownTool (tool_name : json)
| UnknownMethod (method : json).

Definition Result (A : Type) : Type := exn + A.

Definition raise {A} (e : exn) : Result A := inl e.

Definition rbind {A B} (m : Result A) (k : A → Result B) : Result B :=
  match m with
  | inl e => inl e
  | inr a => k a
  end.

Notation "'try!' x ← m ; k" := (rbind m (λ x, k))
  (at level 20, x name, m at level 100, k at level 200,
   format "'[v' 'try!'  x  ←  m ; '/' k ']'").

(** A [for] loop whose body can raise. *)
Fixpoint for_each {A S} (body : S → A → Result S) (s : S) (l : list A)
  : Result S :=
  match l with
  | [] => inr s
  | x :: l' => try! s' ← body s x; for_each body s' l'
  end.

(** [d.get(key, default)]; anything but a dict has no [get]. *)
Definition get (d : json) (key : string) (dflt : json) : Result json :=
  match d with
  | JObj m => inr (default dflt (m !! key))
  | _ => raise (AttributeError (type_name d) "get")
  end.

(** ** The workbook object model *)

(** The part of openpyxl's object model that the analyzer uses.  openpyxl
    is a library, not part of the repository: workbooks, worksheets and
    cells are given here as the data the analyzer reads from them (section
    3 of the specification: a worksheet has a name, a visibility state,
    cells addressed by row and column within a bounding box, and per-row
    and per-column visibility flags), with the library's accessors on top.
    Rows and columns are numbered from 1. *)
Module openpyxl.

Record Comment := {
  text : string;
  (** [None]: the object has no [author] attribute. *)
  author : option string
}.

Record Cell := {
  row : nat;
  column : nat;
  value : pyvalue;
  comment : option Comment
}.

Record Worksheet := {
  title : string;
  sheet_state : string;
  (** populated cells by (row, column): value and comment *)
  _cells : gmap (nat * nat) (pyvalue * option Comment);
  (** [hidden] flag of the recorded row dimensions, by row number *)
  row_dimensions : gmap nat bool;
  (** [hidden] flag of the recorded column dimensions, by letter *)
  column_dimensions : gmap string bool
}.

(** A workbook: its worksheets in definition order. *)
Definition Workbook := list Worksheet.

(** [wb.sheetnames]. *)
Definition sheetnames (wb : Workbook) : list string := title <$> wb.

(** [wb[name]]: the first sheet with that title. *)
Fixpoint getitem (wb : Workbook) (name : string) : Result Worksheet :=
  match wb with
  | [] => raise (KeyError name)
  | ws :: wb' => if String.eqb (title ws) name then inr ws else getitem wb' name
  end.

(** Largest row (column) index holding a cell; 1 for an empty sheet. *)
Definition max_row (ws : Worksheet) : nat :=
  match map_to_list (_cells ws) with
  | [] => 1
  | l => max_list (fst ∘ fst <$> l)
  end.

Definition max_column (ws : Worksheet) : nat :=
  match map_to_list (_cells ws) with
  | [] => 1
  | l => max_list (snd ∘ fst <$> l)
  end.

(** [ws.cell(row=r, column=c)]: the stored cell, or a new empty one. *)
Definition cell (ws : Worksheet) (r c : nat) : Cell :=
  match _cells ws !! (r, c) with
  | Some (v, cm) => {| row := r; column := c; value := v; comment := cm |}
  | None => {| row := r; column := c; value := PyNone; comment := None |}
  end.

(** A cell object is always true in a condition. *)
Definition cell_truthy (c : Cell) : bool := true.

(** [ws.iter_rows()]: the rows 1..max_row, each the cells of the
    columns 1..max_column. *)
Definition iter_rows (ws : Worksheet) : list (list Cell) :=
  (λ r, cell ws r <$> seq 1 (max_column ws)) <$> seq 1 (max_row ws).

(** The loop of [get_column_letter]: divide by 26, borrowing on an exact
    division; [fuel] bounds the number of iterations. *)
Fixpoint column_letters (fuel col_idx : nat) (letters : list ascii)
  : list ascii :=
  match fuel with
  | 0 => letters
  | S fuel' =>
      if col_idx =? 0 then letters
      else
        let q := col_idx / 26 in
        let remainder := col_idx mod 26 in
        if remainder =? 0
        then column_letters fuel' (q - 1) (letters ++ [ascii_of_nat (26 + 64)])
        else column_letters fuel' q (letters ++ [ascii_of_nat (remainder + 64)])
  end.

(** Modelled from the spec: [openpyxl.utils.get_column_letter] is library
    code outside the repository; column letters follow the spreadsheet
    convention A, B, ..., Z, AA, ... and every column index from 1 on has
    a label. *)
Definition get_column_letter (col_idx : nat) : string :=
  String.string_of_list_ascii (reverse (column_letters col_idx col_idx [])).

(** [cell.coordinate]: column letters followed by the row number. *)
Definition coordinate (c : Cell) : string :=
  get_column_letter (column c) +:+ pretty (row c).

(** [ws.row_dimensions[row_num].hidden]: a dimension that was never
    recorded is created on access, not hidden. *)
Definition row_hidden (ws : Worksheet) (row_num : nat) : bool :=
  default false (row_dimensions ws !! row_num).

(** [ws.column_dimensions[col_letter].hidden]. *)
Definition column_hidden (ws : Worksheet) (col_letter : string) : bool :=
  default false (column_dimensions ws !! col_letter).

End openpyxl.

Import openpyxl.

(** ** Reports

    One module per result dict, so that the keys keep their names. *)

Module Comments.
Record entry := {
  cell : string;
  value : string;
  comment : string;
  author : string
}.
Record sheet_entry := {
  sheet : string;
  comment_count : nat;
  comments : list entry
}.
Record report := {
  filename : json;
  total_comments : nat;
  worksheets : list sheet_entry
}.
End Comments.

Module Questions.
Record entry := {
  cell : string;
  question : string;
  (** [None] is the JSON null of the [else None] branch *)
  answer_cell : option string;
  answer : string
}.
Record sheet_entry := {
  sheet : string;
  question_count : nat;
  questions : list entry
}.
Record report := {
  filename : json;
  total_questions : nat;
  worksheets : list sheet_entry
}.
End Questions.

Module Hidden.
Record sheet_entry := {
  sheet : string;
  hidden : bool;
  row_count : nat;
  column_count : nat;
  hidden_row_count : nat;
  hidden_column_count : nat;
  hidden_rows : list nat;
  hidden_columns : list string
}.
Record report := {
  filename : json;
  total_hidden_rows : nat;
  total_hidden_columns : nat;
  worksheets : list sheet_entry
}.
End Hidden.

Module Comprehensive.
Record summary_dict := {
  total_comments : nat;
  total_questions : nat;
  total_hidden_rows : nat;
  total_hidden_columns : nat;
  worksheet_count : nat
}.
Record report := {
  filename : json;
  summary : summary_dict;
  comments : Comments.report;
  questions : Questions.report;
  hidden_content : Hidden.report
}.
End Comprehensive.

(** ** ExcelAnalyzer: the scans of a loaded workbook *)

(** [if l:] for a list. *)
Definition nonempty {A} (l : list A) : bool :=
  match l with [] => false | _ => true end.

(** [getattr(comment, 'author', 'Unknown')]. *)
Definition getattr_author (c : Comment) : string :=
  default "Unknown" (author c).

(** The record appended for a commented cell (lines 69-74). *)
Definition comment_entry (c : Cell) (cm : Comment) : Comments.entry :=
  {| Comments.cell := coordinate c;
     Comments.value := if truthy (value c) then py_str (value c) else "";
     Comments.comment := text cm;
     Comments.author := getattr_author cm |}.

(** The two inner loops of [extract_comments] (lines 64-74). *)
Definition sheet_comments (ws : Worksheet) : list Comments.entry :=
  foldl (λ acc row,
    foldl (λ acc c,
      match openpyxl.comment c with
      | Some cm => acc ++ [comment_entry c cm]
      | None => acc
      end) acc row) [] (iter_rows ws).

(** The body of the sheet loop of [extract_comments] (lines 63-82). *)
Definition extract_comments_step (wb : Workbook)
    (results : Comments.report) (sheet_name : string)
  : Result Comments.report :=
  try! ws ← getitem wb sheet_name;
  let sheet_comments := sheet_comments ws in
  if nonempty sheet_comments then
    inr {| Comments.filename := Comments.filename results;
           Comments.total_comments :=
             Comments.total_comments results + length sheet_comments;
           Comments.worksheets :=
             Comments.worksheets results ++
             [ {| Comments.sheet := sheet_name;
                  Comments.comment_count := length sheet_comments;
                  Comments.comments := sheet_comments |} ] |}
  else inr results.

(** [extract_comments] between loading and cleanup (lines 56-85). *)
Definition extract_comments_scan (filename : json) (wb : Workbook)
  : Result Comments.report :=
  for_each (extract_comments_step wb)
    {| Comments.filename := filename;
       Comments.total_comments := 0;
       Comments.worksheets := [] |}
    (sheetnames wb).

(** The record appended for a question cell (lines 110-117).  Where the
    sheet has no cell to the right, [ws.cell] creates an empty one; that
    cell lies beyond the columns of the running iteration or is one the
    iteration creates itself, and the workbook is dropped after the scan,
    so the sheet is left as it is here. *)
Definition question_entry (ws : Worksheet) (c : Cell) : Questions.entry :=
  let answer_cell := openpyxl.cell ws (row c) (column c + 1) in
  {| Questions.cell := coordinate c;
     Questions.question := py_str (value c);
     Questions.answer_cell :=
       if cell_truthy answer_cell then Some (coordinate answer_cell) else None;
     Questions.answer :=
       if cell_truthy answer_cell && truthy (value answer_cell)
       then py_str (value answer_cell) else "" |}.

(** [cell.value and '?' in str(cell.value)]. *)
Definition is_question (c : Cell) : bool :=
  truthy (value c) && str_contains "?" (py_str (value c)).

(** The two inner loops of [extract_questions] (lines 104-117). *)
Definition sheet_questions (ws : Worksheet) : list Questions.entry :=
  foldl (λ acc row,
    foldl (λ acc c,
      if is_question c then acc ++ [question_entry ws c] else acc)
      acc row) [] (iter_rows ws).

(** The body of the sheet loop of [extract_questions] (lines 103-125). *)
Definition extract_questions_step (wb : Workbook)
    (results : Questions.report) (sheet_name : string)
  : Result Questions.report :=
  try! ws ← getitem wb sheet_name;
  let sheet_questions := sheet_questions ws in
  if nonempty sheet_questions then
    inr {| Questions.filename := Questions.filename results;
           Questions.total_questions :=
             Questions.total_questions results + length sheet_questions;
           Questions.worksheets :=
             Questions.worksheets results ++
             [ {| Questions.sheet := sheet_name;
                  Questions.question_count := length sheet_questions;
                  Questions.questions := sheet_questions |} ] |}
  else inr results.

(** [extract_questions] between loading and cleanup (lines 96-128). *)
Definition extract_questions_scan (filename : json) (wb : Workbook)
  : Result Questions.report :=
  for_each (extract_questions_step wb)
    {| Questions.filename := filename;
       Questions.total_questions := 0;
       Questions.worksheets := [] |}
    (sheetnames wb).

(** The row loop of [detect_hidden_content] (lines 152-155). *)
Definition hidden_rows_of (ws : Worksheet) : list nat :=
  foldl (λ hidden_rows row_num,
    if row_hidden ws row_num then hidden_rows ++ [row_num] else hidden_rows)
    [] (seq 1 (max_row ws)).

(** The column loop of [detect_hidden_content] (lines 158-162). *)
Definition hidden_columns_of (ws : Worksheet) : list string :=
  foldl (λ hidden_columns col_num,
    let col_letter := get_column_letter col_num in
    if column_hidden ws col_letter
    then hidden_columns ++ [col_letter] else hidden_columns)
    [] (seq 1 (max_column ws)).

(** [sheet_data] (lines 164-173). *)
Definition sheet_data (sheet_name : string) (ws : Worksheet)
  : Hidden.sheet_entry :=
  let hidden_rows := hidden_rows_of ws in
  let hidden_columns := hidden_columns_of ws in
  {| Hidden.sheet := sheet_name;
     Hidden.hidden := String.eqb (sheet_state ws) "hidden";
     Hidden.row_count := max_row ws;
     Hidden.column_count := max_column ws;
     Hidden.hidden_row_count := length hidden_rows;
     Hidden.hidden_column_count := length hidden_columns;
     Hidden.hidden_rows := take 50 hidden_rows;
     Hidden.hidden_columns := take 50 hidden_columns |}.

(** The body of the sheet loop of [detect_hidden_content] (lines 147-177). *)
Definition detect_hidden_content_step (wb : Workbook)
    (results : Hidden.report) (sheet_name : string)
  : Result Hidden.report :=
  try! ws ← getitem wb sheet_name;
  inr {| Hidden.filename := Hidden.filename results;
         Hidden.total_hidden_rows :=
           Hidden.total_hidden_rows results + length (hidden_rows_of ws);
         Hidden.total_hidden_columns :=
           Hidden.total_hidden_columns results + length (hidden_columns_of ws);
         Hidden.worksheets :=
           Hidden.worksheets results ++ [sheet_data sheet_name ws] |}.

(** [detect_hidden_content] between loading and cleanup (lines 139-180). *)
Definition detect_hidden_content_scan (filename : json) (wb : Workbook)
  : Result Hidden.report :=
  for_each (detect_hidden_content_step wb)
    {| Hidden.filename := filename;
       Hidden.total_hidden_rows := 0;
       Hidden.total_hidden_columns := 0;
       Hidden.worksheets := [] |}
    (sheetnames wb).

(** ** Temporary files and the monad of the analyzer *)

(** The temporary directory: the content of each live temporary file.
    A path is the index of the name the system hands out. *)
Abbreviation path := nat.
Abbreviation fs := (gmap path (list byte)).

(** A computation that may raise and may touch the temporary directory. *)
Definition M (A : Type) : Type := fs → Result A * fs.

Definition M_ret {A} (a : A) : M A := λ σ, (inr a, σ).

Definition M_bind {A B} (m : M A) (k : A → M B) : M B :=
  λ σ, match m σ with
       | (inl e, σ') => (inl e, σ')
       | (inr a, σ') => k a σ'
       end.

Definition lift {A} (r : Result A) : M A := λ σ, (r, σ).

Notation "'do!' x ← m ; k" := (M_bind m (λ x, k))
  (at level 20, x name, m at level 100, k at level 200,
   format "'[v' 'do!'  x  ←  m ; '/' k ']'").

(** [try: m finally: cleanup]. *)
Definition try_finally {A} (m : M A) (cleanup : fs → fs) : M A :=
  λ σ, let (r, σ') := m σ in (r, cleanup σ').

(** [try: m except Exception as e: handler e]. *)
Definition try_except {A} (m : M A) (handler : exn → M A) : M A :=
  λ σ, match m σ with
       | (inl e, σ') => handler e σ'
       | (inr a, σ') => (inr a, σ')
       end.

(** [if os.path.exists(p): os.unlink(p)]. *)
Definition unlink_if_exists (p : path) (σ : fs) : fs := delete p σ.

(** ** Tool descriptors *)

Module Property.
Record t := {
  type : string;
  description : string
}.
End Property.

Module Schema.
Record t := {
  type : string;
  properties : list (string * Property.t);
  required : list string
}.
End Schema.

Module Tool.
Record descriptor := {
  name : string;
  description : string;
  inputSchema : Schema.t
}.
End Tool.

(** The input schema shared by the four tools. *)
Definition filename_schema : Schema.t :=
  {| Schema.type := "object";
     Schema.properties :=
       [("filename"%string,
         {| Property.type := "string";
            Property.description := "Workbook filename (.xlsx file)" |})];
     Schema.required := ["filename"%string] |}.

(** [TOOLS] (lines 207-264). *)
Definition TOOLS : list Tool.descriptor :=
  [ {| Tool.name := "extract_comments";
       Tool.description :=
         "Extract all Excel comments from a workbook. Returns comments with cell location, content, and author.";
       Tool.inputSchema := filename_schema |};
    {| Tool.name := "extract_questions";
       Tool.description :=
         "Find all cells containing questions (cells with '?'). Automatically detects answers in adjacent cells.";
       Tool.inputSchema := filename_schema |};
    {| Tool.name := "detect_hidden_content";
       Tool.description :=
         "List all hidden rows, columns, and worksheets. Shows which content is hidden in the workbook.";
       Tool.inputSchema := filename_schema |};
    {| Tool.name := "comprehensive_analysis";
       Tool.description :=
         "Full workbook analysis - extracts comments, questions, hidden content, and provides summary statistics.";
       Tool.inputSchema := filename_schema |} ].

(** ** Responses *)

(** What a tool call returns before [json.dumps]. *)
Inductive tool_result :=
| CommentsResult (r : Comments.report)
| QuestionsResult (r : Questions.report)
| HiddenResult (r : Hidden.report)
| ComprehensiveResult (r : Comprehensive.report).

(** The ["result"] member of a response.  [content] stands for
    [json.dumps(result, indent=2)], kept as the report it serializes. *)
Inductive rpc_result :=
| InitializeResult (protocolVersion : string) (capabilities : json)
    (serverInfo_name serverInfo_version : string)
| ToolsListResult (tools : list Tool.descriptor)
| ToolsCallResult (content : tool_result).

Module Rpc.
Record error_dict := {
  code : Z;
  message : string;
  data : string
}.

(** A response has either a ["result"] or an ["error"] member. *)
Inductive payload :=
| result (r : rpc_result)
| error (e : error_dict).

Record response := {
  jsonrpc : string;
  id : json;
  body : payload
}.
End Rpc.

Abbreviation response := Rpc.response.

(** What the process does, in order. *)
Inductive event :=
| Stderr (text : string)
| ReadLine (line : string)
| Stdout (r : response).

(** ** The libraries the server calls *)

(** Library functions the server uses as black boxes.  Each returns either
    the message of the exception it raises or its value. *)
Record libraries := {
  (** [json.loads] on one input line *)
  json_loads : string → string + json;
  (** [base64.b64decode] on a string *)
  b64decode_str : string → string + list byte;
  (** [openpyxl.load_workbook(path, data_only=False)] on the file content *)
  load_workbook : list byte → string + Workbook;
  (** [repr] of a decoded list or dict, as [str.format] prints it *)
  py_repr : json → string
}.

Section Server.

Variable lib : libraries.

(** [str(j)] for a decoded JSON value inside an f-string. *)
Definition format (j : json) : string :=
  match j with
  | JNull => "None"
  | JBool true => "True"
  | JBool false => "False"
  | JNum z => pretty z
  | JStr s => s
  | JArr _ | JObj _ => py_repr lib j
  end.

(** [str(e)]. *)
Definition exn_str (e : exn) : string :=
  match e with
  | AttributeError type attr =>
      "'" +:+ type +:+ "' object has no attribute '" +:+ attr +:+ "'"
  | KeyError key => "'Worksheet " +:+ key +:+ " does not exist.'"
  | StageError => "a bytes-like object is required, not 'NoneType'"
  | LoadError cause => cause
  | DecodeError cause => cause
  | B64TypeError type =>
      "argument should be a bytes-like object or ASCII string, not '"
      +:+ type +:+ "'"
  | JSONDecodeError cause => cause
  | UnknownTool tool_name => "Unknown tool: " +:+ format tool_name
  | UnknownMethod method => "Unknown method: " +:+ format method
  end.

(** [load_workbook(tmp_path)]: read the file, then parse it. *)
Definition open_workbook (tmp_path : path) (σ : fs) : Result Workbook :=
  match σ !! tmp_path with
  | None => raise (LoadError "No such file or directory")
  | Some content =>
      match load_workbook lib content with
      | inl cause => raise (LoadError cause)
      | inr wb => inr wb
      end
  end.

(** [ExcelAnalyzer.load_workbook_from_buffer] (lines 36-48).  The [with]
    block creates the file under a fresh name and writes the buffer;
    writing [None] raises and leaves the empty file behind.  A failed
    load removes the file before re-raising. *)
Definition load_workbook_from_buffer (file_buffer : option (list byte))
  : M (Workbook * path) :=
  λ σ,
    let tmp_path := fresh (dom σ) in
    let σ := <[tmp_path := []]> σ in
    match file_buffer with
    | None => (raise StageError, σ)
    | Some bytes =>
        let σ := <[tmp_path := bytes]> σ in
        match open_workbook tmp_path σ with
        | inr wb => (inr (wb, tmp_path), σ)
        | inl e => (inl e, unlink_if_exists tmp_path σ)
        end
    end.

(** [ExcelAnalyzer.extract_comments] (lines 51-88). *)
Definition extract_comments (filename : json)
    (file_buffer : option (list byte)) : M Comments.report :=
  do! loaded ← load_workbook_from_buffer file_buffer;
  let '(wb, tmp_path) := loaded in
  try_finally (lift (extract_comments_scan filename wb))
              (unlink_if_exists tmp_path).

(** [ExcelAnalyzer.extract_questions] (lines 91-131). *)
Definition extract_questions (filename : json)
    (file_buffer : option (list byte)) : M Questions.report :=
  do! loaded ← load_workbook_from_buffer file_buffer;
  let '(wb, tmp_path) := loaded in
  try_finally (lift (extract_questions_scan filename wb))
              (unlink_if_exists tmp_path).

(** [ExcelAnalyzer.detect_hidden_content] (lines 134-183). *)
Definition detect_hidden_content (filename : json)
    (file_buffer : option (list byte)) : M Hidden.report :=
  do! loaded ← load_workbook_from_buffer file_buffer;
  let '(wb, tmp_path) := loaded in
  try_finally (lift (detect_hidden_content_scan filename wb))
              (unlink_if_exists tmp_path).

(** [ExcelAnalyzer.comprehensive_analysis] (lines 186-204). *)
Definition comprehensive_analysis (filename : json)
    (file_buffer : option (list byte)) : M Comprehensive.report :=
  do! comments ← extract_comments filename file_buffer;
  do! questions ← extract_questions filename file_buffer;
  do! hidden ← detect_hidden_content filename file_buffer;
  M_ret
    {| Comprehensive.filename := filename;
       Comprehensive.summary :=
         {| Comprehensive.total_comments := Comments.total_comments comments;
            Comprehensive.total_questions :=
              Questions.total_questions questions;
            Comprehensive.total_hidden_rows :=
              Hidden.total_hidden_rows hidden;
            Comprehensive.total_hidden_columns :=
              Hidden.total_hidden_columns hidden;
            Comprehensive.worksheet_count :=
              length (Hidden.worksheets hidden) |};
       Comprehensive.comments := comments;
       Comprehensive.questions := questions;
       Comprehensive.hidden_content := hidden |}.

(** [base64.b64decode(v)]: only a string can be decoded. *)
Definition b64decode (v : json) : Result (list byte) :=
  match v with
  | JStr s =>
      match b64decode_str lib s with
      | inl cause => raise (DecodeError cause)
      | inr bytes => inr bytes
      end
  | _ => raise (B64TypeError (type_name v))
  end.

(** Lines 305-307: the buffer is [None] unless the request dict has a
    ["fileContent"] key, whose value is then decoded.  (The request is a
    dict here: [handle_request] has called its [get] before.) *)
Definition request_file_buffer (request : json)
  : Result (option (list byte)) :=
  match request with
  | JObj m =>
      match m !! "fileContent" with
      | Some file_content =>
          try! bytes ← b64decode file_content; inr (Some bytes)
      | None => inr None
      end
  | _ => inr None
  end.

(** Lines 310-319: the chain of comparisons on [tool_name]. *)
Definition call_tool (tool_name filename : json)
    (file_buffer : option (list byte)) : M tool_result :=
  if json_eq_str tool_name "extract_comments" then
    do! r ← extract_comments filename file_buffer; M_ret (CommentsResult r)
  else if json_eq_str tool_name "extract_questions" then
    do! r ← extract_questions filename file_buffer; M_ret (QuestionsResult r)
  else if json_eq_str tool_name "detect_hidden_content" then
    do! r ← detect_hidden_content filename file_buffer;
    M_ret (HiddenResult r)
  else if json_eq_str tool_name "comprehensive_analysis" then
    do! r ← comprehensive_analysis filename file_buffer;
    M_ret (ComprehensiveResult r)
  else lift (raise (UnknownTool tool_name)).

(** The [try] block of [handle_request] (lines 273-330). *)
Definition handle_request_try (request method params req_id : json)
  : M response :=
  if json_eq_str method "initialize" then
    M_ret {| Rpc.jsonrpc := "2.0"; Rpc.id := req_id;
             Rpc.body :=
               Rpc.result (InitializeResult "2024-11-05"
                             (JObj {[ "tools" := JObj ∅ ]})
                             "excel-python-mcp" "1.0.0") |}
  else if json_eq_str method "tools/list" then
    M_ret {| Rpc.jsonrpc := "2.0"; Rpc.id := req_id;
             Rpc.body := Rpc.result (ToolsListResult TOOLS) |}
  else if json_eq_str method "tools/call" then
    do! tool_name ← lift (get params "name" JNull);
    do! arguments ← lift (get params "arguments" (JObj ∅));
    do! filename ← lift (get arguments "filename" JNull);
    do! file_buffer ← lift (request_file_buffer request);
    do! r ← call_tool tool_name filename file_buffer;
    M_ret {| Rpc.jsonrpc := "2.0"; Rpc.id := req_id;
             Rpc.body := Rpc.result (ToolsCallResult r) |}
  else lift (raise (UnknownMethod method)).

(** The [except] block of [handle_request] (lines 332-341). *)
Definition internal_error (req_id : json) (e : exn) : response :=
  {| Rpc.jsonrpc := "2.0"; Rpc.id := req_id;
     Rpc.body := Rpc.error {| Rpc.code := -32603;
                              Rpc.message := "Internal error";
                              Rpc.data := exn_str e |} |}.

(** [handle_request] (lines 266-341).  The three [request.get] calls
    stand before the [try]: what they raise leaves the function. *)
Definition handle_request (request : json) : M response :=
  do! method ← lift (get request "method" JNull);
  do! params ← lift (get request "params" (JObj ∅));
  do! req_id ← lift (get request "id" (JNum 0));
  try_except (handle_request_try request method params req_id)
             (λ e, M_ret (internal_error req_id e)).

(** The [except] block of [main] (lines 355-365). *)
Definition parse_error (e : exn) : response :=
  {| Rpc.jsonrpc := "2.0"; Rpc.id := JNum 0;
     Rpc.body := Rpc.error {| Rpc.code := -32700;
                              Rpc.message := "Parse error";
                              Rpc.data := exn_str e |} |}.

(** [json.loads(line)]. *)
Definition loads (line : string) : Result json :=
  match json_loads lib line with
  | inl cause => raise (JSONDecodeError cause)
  | inr j => inr j
  end.

(** The [try]/[except] of [main] for one line (lines 351-365): the
    response printed, whichever branch prints it. *)
Definition respond (line : string) (σ : fs) : response * fs :=
  match (do! request ← lift (loads line); handle_request request) σ with
  | (inr response, σ') => (response, σ')
  | (inl e, σ') => (parse_error e, σ')
  end.

(** The [for line in sys.stdin] loop of [main] (lines 347-365). *)
Fixpoint main_loop (stdin : list string) (σ : fs) : list event * fs :=
  match stdin with
  | [] => ([], σ)
  | line :: rest =>
      if strip_is_empty line then
        let (trace, σ') := main_loop rest σ in (ReadLine line :: trace, σ')
      else
        let (response, σ1) := respond line σ in
        let (trace, σ2) := main_loop rest σ1 in
        (ReadLine line :: Stdout response :: trace, σ2)
  end.

(** [main] (lines 343-365). *)
Definition main (stdin : list string) (σ : fs) : list event * fs :=
  let (trace, σ') := main_loop stdin σ in
  (Stderr "Python Excel Analysis MCP Server starting..." :: trace, σ').

End Server.

(** ** Vocabulary of the statements *)

(** The cells a scan visits, in visiting order: row by row, and within a
    row column by column, inside the bounding box. *)
Definition visited (ws : Worksheet) : list Cell :=
  r ← seq 1 (max_row ws); cell ws r <$> seq 1 (max_column ws).

(** The sheets the loop [for sheet_name in wb.sheetnames: ws = wb[sheet_name]]
    works on, with the name that selected each. *)
Definition resolve (wb : Workbook) (names : list string)
  : list (string * Worksheet) :=
  omap (λ name, match getitem wb name with
                | inr ws => Some (name, ws)
                | inl _ => None
                end) names.

(** The worksheet entry [extract_comments] appends for a sheet, if any:
    sheets without comments are left out. *)
Definition comments_entry_of (s : string * Worksheet)
  : option Comments.sheet_entry :=
  if nonempty (sheet_comments s.2) then
    Some {| Comments.sheet := s.1;
            Comments.comment_count := length (sheet_comments s.2);
            Comments.comments := sheet_comments s.2 |}
  else None.

(** The worksheet entry [extract_questions] appends for a sheet, if any:
    sheets without questions are left out. *)
Definition questions_entry_of (s : string * Worksheet)
  : option Questions.sheet_entry :=
  if nonempty (sheet_questions s.2) then
    Some {| Questions.sheet := s.1;
            Questions.question_count := length (sheet_questions s.2);
            Questions.questions := sheet_questions s.2 |}
  else None.

(** The rows of the bounding box whose dimension is flagged hidden, in
    ascending order: the true, untruncated hidden rows of a sheet. *)
Definition true_hidden_rows (ws : Worksheet) : list nat :=
  List.filter (row_hidden ws) (seq 1 (max_row ws)).

(** The column indices of the bounding box whose dimension (looked up by
    letter) is flagged hidden, in ascending order. *)
Definition true_hidden_columns (ws : Worksheet) : list nat :=
  List.filter (λ col_num, column_hidden ws (get_column_letter col_num))
              (seq 1 (max_column ws)).


(** The names [tools/list] advertises. *)
Definition tool_names : list string := Tool.name <$> TOOLS.

(** The value is the name of a tool of the catalog. *)
Definition listed (tool_name : json) : bool :=
  existsb (json_eq_str tool_name) tool_names.

(** [true] when the object has the shape [dict.get] needs. *)
Definition is_object (j : json) : bool :=
  match j with JObj _ => true | _ => false end.

(** Traces in which every line is read in order, a blank line is followed
    by nothing, and any other line is followed by exactly one response
    before the next line is read. *)
Inductive serialized : list string → list event → Prop :=
| serialized_done : serialized [] []
| serialized_blank line stdin trace :
    strip_is_empty line = true →
    serialized stdin trace →
    serialized (line :: stdin) (ReadLine line :: trace)
| serialized_request line stdin response trace :
    strip_is_empty line = false →
    serialized stdin trace →
    serialized (line :: stdin) (ReadLine line :: Stdout response :: trace).

(** The event is a line written to the output. *)
Definition is_stdout (ev : event) : bool :=
  match ev with Stdout _ => true | _ => false end.

(** The reports with their filename members replaced. *)
Definition comments_with_filename (filename : json) (r : Comments.report)
  : Comments.report :=
  {| Comments.filename := filename;
     Comments.total_comments := Comments.total_comments r;
     Comments.worksheets := Comments.worksheets r |}.

Definition questions_with_filename (filename : json) (r : Questions.report)
  : Questions.report :=
  {| Questions.filename := filename;
     Questions.total_questions := Questions.total_questions r;
     Questions.worksheets := Questions.worksheets r |}.

Definition hidden_with_filename (filename : json) (r : Hidden.report)
  : Hidden.report :=
  {| Hidden.filename := filename;
     Hidden.total_hidden_rows := Hidden.total_hidden_rows r;
     Hidden.total_hidden_columns := Hidden.total_hidden_columns r;
     Hidden.worksheets := Hidden.worksheets r |}.

Definition with_filename (filename : json) (r : tool_result) : tool_result :=
  match r with
  | CommentsResult r => CommentsResult (comments_with_filename filename r)
  | QuestionsResult r => QuestionsResult (questions_with_filename filename r)
  | HiddenResult r => HiddenResult (hidden_with_filename filename r)
  | ComprehensiveResult r =>
      ComprehensiveResult
        {| Comprehensive.filename := filename;
           Comprehensive.summary := Comprehensive.summary r;
           Comprehensive.comments :=
             comments_with_filename filename (Comprehensive.comments r);
           Comprehensive.questions :=
             questions_with_filename filename (Comprehensive.questions r);
           Comprehensive.hidden_content :=
             hidden_with_filename filename (Comprehensive.hidden_content r) |}
  end.

Section Adapter.

Variable lib : libraries.

(** What the adapter makes of a buffer. *)
Definition staged (file_buffer : option (list byte)) : Result Workbook :=
  match file_buffer with
  | None => raise StageError
  | Some bytes =>
      match load_workbook lib bytes with
      | inl cause => raise (LoadError cause)
      | inr wb => inr wb
      end
  end.

(** The temporary directory after a pass: unchanged when a buffer was
    staged, one stray empty file when the write of [None] failed. *)
Definition leftover (file_buffer : option (list byte)) (σ : fs) : fs :=
  match file_buffer with
  | None => <[fresh (dom σ) := []]> σ
  | Some _ => σ
  end.

(** The shape shared by the three passes. *)
Definition pass {A} (scan : Workbook → Result A)
    (file_buffer : option (list byte)) : M A :=
  do! loaded ← load_workbook_from_buffer lib file_buffer;
  let '(wb, tmp_path) := loaded in
  try_finally (lift (scan wb)) (unlink_if_exists tmp_path).

End Adapter.

(** ** Test doubles and sample inputs *)

(** A stand-in for the libraries: every buffer loads as [wb], every
    base64 string decodes to the empty buffer, and of all input lines only
    the JSON text of an empty array decodes. *)
Definition test_libraries (wb : Workbook) : libraries :=
  {| json_loads := λ line,
       if String.eqb line "[]" then inr (JArr []) else inl "Expecting value";
     b64decode_str := λ _, inr [];
     load_workbook := λ _, inr wb;
     py_repr := λ _, "[]" |}.

(** Sheet1 with A1 = "Is this done?" and B1 = "Yes". *)
Definition question_sheet : Worksheet :=
  {| title := "Sheet1";
     sheet_state := "visible";
     _cells := {[ (1, 1) := (PyStr "Is this done?", None);
                  (1, 2) := (PyStr "Yes", None) ]};
     row_dimensions := ∅;
     column_dimensions := ∅ |}.

(** A sheet of 51 rows, all of them hidden, and 1 visible column. *)
Definition many_hidden_sheet : Worksheet :=
  {| title := "Data";
     sheet_state := "veryHidden";
     _cells := {[ (51, 1) := (PyInt 7, None) ]};
     row_dimensions := list_to_map ((λ r, (r, true)) <$> seq 1 51);
     column_dimensions := ∅ |}.

(** Six rows of data, row 5 hidden, no column hidden. *)
Definition row_five_hidden_sheet : Worksheet :=
  {| title := "Plan";
     sheet_state := "visible";
     _cells := {[ (1, 1) := (PyStr "task", None);
                  (6, 2) := (PyInt 12, None) ]};
     row_dimensions := {[ 5 := true; 2 := false ]};
     column_dimensions := {[ "A"%string := false ]} |}.

(** A1 asks a question and B1, the cell to its right, holds the number 0. *)
Definition zero_answer_sheet : Worksheet :=
  {| title := "Survey";
     sheet_state := "visible";
     _cells := {[ (1, 1) := (PyStr "How many?", None);
                  (1, 2) := (PyInt 0, None) ]};
     row_dimensions := ∅;
     column_dimensions := ∅ |}.

(** A1 holds the number 0 and a comment by Ann; B2 holds a text and a
    comment whose object has no author attribute. *)
Definition commented_sheet : Worksheet :=
  {| title := "Budget";
     sheet_state := "visible";
     _cells :=
       {[ (1, 1) := (PyInt 0, Some {| text := "check this"; author := Some "Ann"%string |});
          (2, 2) := (PyStr "total", Some {| text := "sum of B"; author := None |}) ]};
     row_dimensions := ∅;
     column_dimensions := ∅ |}.

(** A [tools/call] for a tool that does not exist, whose [fileContent] is
    a number. *)
Definition unknown_tool_request : gmap string json :=
  {[ "method" := JStr "tools/call";
     "params" := JObj {[ "name" := JStr "no_such_tool" ]};
     "fileContent" := JNum 5 ]}.

(** A [tools/call] of a listed tool, without fileContent, whose arguments
    are a number. *)
Definition bad_arguments_request : gmap string json :=
  {[ "method" := JStr "tools/call";
     "id" := JNum 3;
     "params" := JObj {[ "name" := JStr "extract_comments";
                         "arguments" := JNum 5 ]} ]}.

(** A well-formed [tools/call] of a listed tool without fileContent. *)
Definition no_file_request : gmap string json :=
  {[ "method" := JStr "tools/call";
     "id" := JNum 7;
     "params" :=
       JObj {[ "name" := JStr "detect_hidden_content";
               "arguments" := JObj {[ "filename" := JStr "book.xlsx" ]} ]} ]}.

(** ** Vocabulary of the further properties *)

(** The directory [σ'] is [σ] with, at most, empty files added: no file of
    [σ] is removed or altered. *)
Definition only_empty_added (σ σ' : gmap nat (list byte)) : Prop :=
  σ ⊆ σ' ∧ ∀ p content, σ' !! p = Some content → σ !! p = None → content = [].

(** The lines of the input that are answered. *)
Definition requests (stdin : list string) : list string :=
  List.filter (λ line, negb (strip_is_empty line)) stdin.

(** The responses written to the output, in order. *)
Definition responses (trace : list event) : list response :=
  omap (λ ev, match ev with Stdout r => Some r | _ => None end) trace.

(** A stand-in for the libraries in which no buffer loads and no string
    decodes. *)
Definition broken_libraries : libraries :=
  {| json_loads := λ _, inl "Expecting value";
     b64decode_str := λ _, inl "Incorrect padding";
     load_workbook := λ _, inl "File is not a zip file";
     py_repr := λ _, "[]" |}.

(** A [tools/call] whose [fileContent] is not base64 text and which names
    no tool. *)
Definition undecodable_request : gmap string json :=
  {[ "method" := JStr "tools/call";
     "id" := JStr "q-1";
     "params" := JObj {[ "arguments" := JObj ∅ ]};
     "fileContent" := JStr "@@" ]}.

(** The sheet has a populated cell, at a row and a column counted from 1,
    that carries a comment. *)
Definition has_commented_cell (ws : Worksheet) : Prop :=
  map_Exists (λ pos content, 1 ≤ pos.1 ∧ 1 ≤ pos.2 ∧ is_Some content.2)
             (_cells ws).

(** The sheet has a populated cell, at a row and a column counted from 1,
    whose value is true in a condition and reads with a question mark. *)
Definition has_question_cell (ws : Worksheet) : Prop :=
  map_Exists (λ pos content,
                1 ≤ pos.1 ∧ 1 ≤ pos.2 ∧ truthy content.1 = true ∧
                str_contains "?" (py_str content.1) = true)
             (_cells ws).

(** The sheet selected by [name] has a commented cell. *)
Definition has_comments (wb : Workbook) (name : string) : bool :=
  match getitem wb name with
  | inr ws => bool_decide (has_commented_cell ws)
  | inl _ => false
  end.

(** The sheet selected by [name] has a question cell. *)
Definition has_questions (wb : Workbook) (name : string) : bool :=
  match getitem wb name with
  | inr ws => bool_decide (has_question_cell ws)
  | inl _ => false
  end.

(** * Properties *)

Example get_column_letter_samples :
  get_column_letter <$> [1; 2; 26; 27; 52; 53; 702; 703]
  = ["A"; "B"; "Z"; "AA"; "AZ"; "BA"; "ZZ"; "AAA"]%string.
Proof. vm_compute. reflexivity. Qed.

(** ** Loops as list operations *)

Lemma foldl_concat {A S} (step : S → A → S) (rows : list (list A)) (acc : S) :
  foldl (λ acc row, foldl step acc row) acc rows = foldl step acc (concat rows).
Proof.
  revert acc. induction rows as [|row rows IH]; intros acc; simpl; [done|].
  by rewrite IH, foldl_app.
Qed.

Lemma foldl_pointwise {A S} (f g : S → A → S) (l : list A) (acc : S) :
  (∀ acc x, f acc x = g acc x) → foldl f acc l = foldl g acc l.
Proof.
  intros Hfg. revert acc. induction l as [|x l IH]; intros acc; simpl; [done|].
  by rewrite Hfg, IH.
Qed.

Lemma foldl_append_omap {A B} (g : A → option B) (l : list A) (acc : list B) :
  foldl (λ acc x, match g x with Some y => acc ++ [y] | None => acc end) acc l
  = acc ++ omap g l.
Proof.
  revert acc. induction l as [|x l IH]; intros acc; simpl.
  - by rewrite app_nil_r.
  - rewrite IH. destruct (g x); [|done]. by rewrite <- app_assoc.
Qed.

Lemma foldl_append_filter {A B} (p : A → bool) (f : A → B) (l : list A)
    (acc : list B) :
  foldl (λ acc x, if p x then acc ++ [f x] else acc) acc l
  = acc ++ (f <$> List.filter p l).
Proof.
  revert acc. induction l as [|x l IH]; intros acc; simpl.
  - by rewrite app_nil_r.
  - rewrite IH. destruct (p x); [|done]. simpl. by rewrite <- app_assoc.
Qed.

Lemma concat_fmap_bind {A B} (f : A → list B) (l : list A) :
  concat (f <$> l) = l ≫= f.
Proof. induction l as [|x l IH]; [done|]. csimpl. by rewrite IH. Qed.

Lemma iter_rows_visited ws : concat (iter_rows ws) = visited ws.
Proof. apply concat_fmap_bind. Qed.

Lemma sheet_comments_visited ws :
  sheet_comments ws
  = omap (λ c, comment_entry c <$> openpyxl.comment c) (visited ws).
Proof.
  unfold sheet_comments. rewrite foldl_concat, iter_rows_visited.
  rewrite <- (app_nil_l (omap _ _)), <- foldl_append_omap.
  apply foldl_pointwise. intros acc c. by destruct (openpyxl.comment c).
Qed.

Lemma sheet_questions_visited ws :
  sheet_questions ws
  = question_entry ws <$> List.filter is_question (visited ws).
Proof.
  unfold sheet_questions. rewrite foldl_concat, iter_rows_visited.
  by rewrite foldl_append_filter.
Qed.

Lemma hidden_rows_of_filter ws :
  hidden_rows_of ws = List.filter (row_hidden ws) (seq 1 (max_row ws)).
Proof.
  unfold hidden_rows_of.
  rewrite (foldl_append_filter (row_hidden ws) id). simpl.
  by rewrite list_fmap_id.
Qed.

Lemma filter_fmap_bool {A B} (p : B → bool) (f : A → B) (l : list A) :
  List.filter p (f <$> l) = f <$> List.filter (λ x, p (f x)) l.
Proof.
  induction l as [|x l IH]; [done|].
  rewrite fmap_cons. cbn [List.filter].
  destruct (p (f x)); [rewrite fmap_cons|]; by rewrite IH.
Qed.

Lemma hidden_columns_of_filter ws :
  hidden_columns_of ws
  = List.filter (column_hidden ws)
      (get_column_letter <$> seq 1 (max_column ws)).
Proof.
  unfold hidden_columns_of.
  rewrite (foldl_append_filter
             (λ n, column_hidden ws (get_column_letter n)) get_column_letter).
  by rewrite filter_fmap_bool.
Qed.

(** ** The sheet loop *)

Lemma getitem_inr wb name ws :
  getitem wb name = inr ws → title ws = name ∧ ws ∈ wb.
Proof.
  induction wb as [|ws' wb IH]; simpl; [done|].
  destruct (String.eqb (title ws') name) eqn:E.
  - intros [= <-]. apply String.eqb_eq in E. split; [done|]. by left.
  - intros [? ?]%IH. split; [done|]. by right.
Qed.

Lemma getitem_sheetnames wb name :
  name ∈ sheetnames wb → ∃ ws, getitem wb name = inr ws.
Proof.
  unfold sheetnames. induction wb as [|ws' wb IH]; simpl.
  - by intros ?%elem_of_nil.
  - intros Hin. destruct (String.eqb (title ws') name) eqn:E; [by eexists|].
    apply IH. apply elem_of_cons in Hin as [->|Hin]; [|done].
    by rewrite String.eqb_refl in E.
Qed.

Lemma getitem_unique_titles wb ws :
  NoDup (sheetnames wb) → ws ∈ wb → getitem wb (title ws) = inr ws.
Proof.
  unfold sheetnames. induction wb as [|ws' wb IH]; simpl.
  - by intros _ ?%elem_of_nil.
  - intros [Hnotin Hnd]%NoDup_cons [->|Hin]%elem_of_cons.
    + by rewrite String.eqb_refl.
    + destruct (String.eqb (title ws') (title ws)) eqn:E; [|by apply IH].
      apply String.eqb_eq in E. exfalso. apply Hnotin. rewrite E.
      by apply list_elem_of_fmap_2.
Qed.

Lemma resolve_cons wb name names ws :
  getitem wb name = inr ws →
  resolve wb (name :: names) = (name, ws) :: resolve wb names.
Proof. intros H. unfold resolve. simpl. by rewrite H. Qed.

Lemma resolve_fst wb names :
  Forall (λ n, n ∈ sheetnames wb) names → (resolve wb names).*1 = names.
Proof.
  induction 1 as [|name names Hin _ IH]; [done|].
  destruct (getitem_sheetnames _ _ Hin) as [ws Hws].
  rewrite (resolve_cons _ _ _ _ Hws), fmap_cons. by rewrite IH.
Qed.

Lemma resolve_getitem wb names name ws :
  (name, ws) ∈ resolve wb names → getitem wb name = inr ws.
Proof.
  unfold resolve. intros (n & Hn & H)%list_elem_of_omap.
  destruct (getitem wb n) eqn:E; by simplify_eq.
Qed.

Lemma resolve_lookup wb names i name :
  Forall (λ n, n ∈ sheetnames wb) names →
  names !! i = Some name →
  ∃ ws, getitem wb name = inr ws ∧ resolve wb names !! i = Some (name, ws).
Proof.
  intros Hall. revert i. induction Hall as [|n names Hin _ IH]; intros i.
  - by rewrite lookup_nil.
  - destruct (getitem_sheetnames _ _ Hin) as [ws Hws].
    rewrite (resolve_cons _ _ _ _ Hws). destruct i as [|i]; simpl.
    + intros [= <-]. by exists ws.
    + apply IH.
Qed.

Lemma resolve_unique_titles wb :
  NoDup (sheetnames wb) →
  resolve wb (sheetnames wb) = (λ ws, (title ws, ws)) <$> wb.
Proof.
  intros Hnd. unfold resolve, sheetnames.
  assert (∀ l : list Worksheet, (∀ ws, ws ∈ l → ws ∈ wb) →
    omap (λ name, match getitem wb name with
                  | inr ws => Some (name, ws) | inl _ => None end)
         (title <$> l) = (λ ws, (title ws, ws)) <$> l) as Hgen.
  { induction l as [|ws l IH]; intros Hsub; [done|].
    rewrite !fmap_cons. simpl.
    rewrite (getitem_unique_titles wb ws Hnd) by (apply Hsub; by left).
    f_equal. apply IH. intros ws' ?. apply Hsub. by right. }
  by apply Hgen.
Qed.

Lemma sheetnames_all wb : Forall (λ n, n ∈ sheetnames wb) (sheetnames wb).
Proof. by apply Forall_forall. Qed.

(** ** The three scans as functions of the resolved sheets *)

(** Two results built from the same constructors agree when their
    counters and their lists do. *)
Ltac same_report :=
  f_equal; f_equal;
  solve [lia | by rewrite app_nil_r | by rewrite <- app_assoc].

Lemma nonempty_false_length {A} (l : list A) : nonempty l = false → length l = 0.
Proof. by destruct l. Qed.

Lemma omap_cons_Some {A B} (f : A → option B) x y (l : list A) :
  f x = Some y → omap f (x :: l) = y :: omap f l.
Proof. intros H. simpl. by rewrite H. Qed.

Lemma omap_cons_None {A B} (f : A → option B) x (l : list A) :
  f x = None → omap f (x :: l) = omap f l.
Proof. intros H. simpl. by rewrite H. Qed.

Lemma comments_entry_of_Some name ws :
  nonempty (sheet_comments ws) = true →
  comments_entry_of (name, ws)
  = Some {| Comments.sheet := name;
            Comments.comment_count := length (sheet_comments ws);
            Comments.comments := sheet_comments ws |}.
Proof. intros H. unfold comments_entry_of. simpl. by rewrite H. Qed.

Lemma comments_entry_of_None name ws :
  nonempty (sheet_comments ws) = false → comments_entry_of (name, ws) = None.
Proof. intros H. unfold comments_entry_of. simpl. by rewrite H. Qed.

Lemma questions_entry_of_Some name ws :
  nonempty (sheet_questions ws) = true →
  questions_entry_of (name, ws)
  = Some {| Questions.sheet := name;
            Questions.question_count := length (sheet_questions ws);
            Questions.questions := sheet_questions ws |}.
Proof. intros H. unfold questions_entry_of. simpl. by rewrite H. Qed.

Lemma questions_entry_of_None name ws :
  nonempty (sheet_questions ws) = false → questions_entry_of (name, ws) = None.
Proof. intros H. unfold questions_entry_of. simpl. by rewrite H. Qed.

Lemma extract_comments_loop wb names acc :
  Forall (λ n, n ∈ sheetnames wb) names →
  for_each (extract_comments_step wb) acc names
  = inr {| Comments.filename := Comments.filename acc;
           Comments.total_comments :=
             Comments.total_comments acc
             + sum_list ((λ s, length (sheet_comments s.2))
                         <$> resolve wb names);
           Comments.worksheets :=
             Comments.worksheets acc
             ++ omap comments_entry_of (resolve wb names) |}.
Proof.
  intros Hall. revert acc.
  induction Hall as [|name names Hin _ IH]; intros acc.
  - destruct acc. simpl. same_report.
  - destruct (getitem_sheetnames _ _ Hin) as [ws Hws].
    rewrite (resolve_cons _ _ _ _ Hws). cbn [for_each].
    unfold extract_comments_step at 1. rewrite Hws. cbn [rbind].
    rewrite fmap_cons. simpl (sum_list (_ :: _)).
    destruct (nonempty (sheet_comments ws)) eqn:Hne; cbn [rbind].
    + rewrite IH, (omap_cons_Some _ _ _ _ (comments_entry_of_Some name ws Hne)).
      cbn. same_report.
    + rewrite IH, (omap_cons_None _ _ _ (comments_entry_of_None name ws Hne)).
      rewrite (nonempty_false_length _ Hne). f_equal.
Qed.

Lemma extract_comments_scan_resolved filename wb :
  extract_comments_scan filename wb
  = inr {| Comments.filename := filename;
           Comments.total_comments :=
             sum_list ((λ s, length (sheet_comments s.2))
                       <$> resolve wb (sheetnames wb));
           Comments.worksheets :=
             omap comments_entry_of (resolve wb (sheetnames wb)) |}.
Proof.
  unfold extract_comments_scan.
  by rewrite extract_comments_loop by apply sheetnames_all.
Qed.

Lemma extract_questions_loop wb names acc :
  Forall (λ n, n ∈ sheetnames wb) names →
  for_each (extract_questions_step wb) acc names
  = inr {| Questions.filename := Questions.filename acc;
           Questions.total_questions :=
             Questions.total_questions acc
             + sum_list ((λ s, length (sheet_questions s.2))
                         <$> resolve wb names);
           Questions.worksheets :=
             Questions.worksheets acc
             ++ omap questions_entry_of (resolve wb names) |}.
Proof.
  intros Hall. revert acc.
  induction Hall as [|name names Hin _ IH]; intros acc.
  - destruct acc. simpl. same_report.
  - destruct (getitem_sheetnames _ _ Hin) as [ws Hws].
    rewrite (resolve_cons _ _ _ _ Hws). cbn [for_each].
    unfold extract_questions_step at 1. rewrite Hws. cbn [rbind].
    rewrite fmap_cons. simpl (sum_list (_ :: _)).
    destruct (nonempty (sheet_questions ws)) eqn:Hne; cbn [rbind].
    + rewrite IH, (omap_cons_Some _ _ _ _ (questions_entry_of_Some name ws Hne)).
      cbn. same_report.
    + rewrite IH, (omap_cons_None _ _ _ (questions_entry_of_None name ws Hne)).
      rewrite (nonempty_false_length _ Hne). f_equal.
Qed.

Lemma extract_questions_scan_resolved filename wb :
  extract_questions_scan filename wb
  = inr {| Questions.filename := filename;
           Questions.total_questions :=
             sum_list ((λ s, length (sheet_questions s.2))
                       <$> resolve wb (sheetnames wb));
           Questions.worksheets :=
             omap questions_entry_of (resolve wb (sheetnames wb)) |}.
Proof.
  unfold extract_questions_scan.
  by rewrite extract_questions_loop by apply sheetnames_all.
Qed.

Lemma detect_hidden_content_loop wb names acc :
  Forall (λ n, n ∈ sheetnames wb) names →
  for_each (detect_hidden_content_step wb) acc names
  = inr {| Hidden.filename := Hidden.filename acc;
           Hidden.total_hidden_rows :=
             Hidden.total_hidden_rows acc
             + sum_list ((λ s, length (hidden_rows_of s.2))
                         <$> resolve wb names);
           Hidden.total_hidden_columns :=
             Hidden.total_hidden_columns acc
             + sum_list ((λ s, length (hidden_columns_of s.2))
                         <$> resolve wb names);
           Hidden.worksheets :=
             Hidden.worksheets acc
             ++ ((λ s, sheet_data s.1 s.2) <$> resolve wb names) |}.
Proof.
  intros Hall. revert acc.
  induction Hall as [|name names Hin _ IH]; intros acc.
  - destruct acc. simpl. same_report.
  - destruct (getitem_sheetnames _ _ Hin) as [ws Hws].
    rewrite (resolve_cons _ _ _ _ Hws). cbn [for_each].
    unfold detect_hidden_content_step at 1. rewrite Hws. cbn [rbind].
    rewrite IH, !fmap_cons. cbn. same_report.
Qed.

Lemma detect_hidden_content_scan_resolved filename wb :
  detect_hidden_content_scan filename wb
  = inr {| Hidden.filename := filename;
           Hidden.total_hidden_rows :=
             sum_list ((λ s, length (hidden_rows_of s.2))
                       <$> resolve wb (sheetnames wb));
           Hidden.total_hidden_columns :=
             sum_list ((λ s, length (hidden_columns_of s.2))
                       <$> resolve wb (sheetnames wb));
           Hidden.worksheets :=
             (λ s, sheet_data s.1 s.2) <$> resolve wb (sheetnames wb) |}.
Proof.
  unfold detect_hidden_content_scan.
  by rewrite detect_hidden_content_loop by apply sheetnames_all.
Qed.

(** ** Running a pass: staging, loading, cleanup *)

Section Passes.

Variable lib : libraries.

Lemma fresh_path_free (σ : fs) : σ !! fresh (dom σ) = None.
Proof. apply not_elem_of_dom. apply is_fresh. Qed.

Lemma pass_run {A} (scan : Workbook → Result A) file_buffer σ :
  pass lib scan file_buffer σ
  = (try! wb ← staged lib file_buffer; scan wb, leftover file_buffer σ).
Proof.
  unfold pass, M_bind, load_workbook_from_buffer, staged, leftover.
  destruct file_buffer as [bytes|]; [|done].
  unfold open_workbook. rewrite insert_insert_eq, lookup_insert_eq.
  destruct (load_workbook lib bytes) as [cause|wb]; cbn.
  - unfold unlink_if_exists.
    by rewrite delete_insert_id by apply fresh_path_free.
  - unfold try_finally, lift, unlink_if_exists.
    by rewrite delete_insert_id by apply fresh_path_free.
Qed.

Lemma extract_comments_run filename file_buffer σ :
  extract_comments lib filename file_buffer σ
  = (try! wb ← staged lib file_buffer; extract_comments_scan filename wb,
     leftover file_buffer σ).
Proof. apply (pass_run (extract_comments_scan filename)). Qed.

Lemma extract_questions_run filename file_buffer σ :
  extract_questions lib filename file_buffer σ
  = (try! wb ← staged lib file_buffer; extract_questions_scan filename wb,
     leftover file_buffer σ).
Proof. apply (pass_run (extract_questions_scan filename)). Qed.

Lemma detect_hidden_content_run filename file_buffer σ :
  detect_hidden_content lib filename file_buffer σ
  = (try! wb ← staged lib file_buffer; detect_hidden_content_scan filename wb,
     leftover file_buffer σ).
Proof. apply (pass_run (detect_hidden_content_scan filename)). Qed.

End Passes.

(** ** The bounding box *)

Lemma cell_row ws r c : row (cell ws r c) = r.
Proof. unfold cell. by destruct (_cells ws !! (r, c)) as [[? ?]|]. Qed.

Lemma cell_column ws r c : column (cell ws r c) = c.
Proof. unfold cell. by destruct (_cells ws !! (r, c)) as [[? ?]|]. Qed.

Lemma cell_value_None ws r c :
  _cells ws !! (r, c) = None → value (cell ws r c) = PyNone.
Proof. unfold cell. by intros ->. Qed.

Lemma cell_value_Some ws r c v cm :
  _cells ws !! (r, c) = Some (v, cm) →
  value (cell ws r c) = v ∧ openpyxl.comment (cell ws r c) = cm.
Proof. unfold cell. by intros ->. Qed.

Lemma populated_row_le ws r c x :
  _cells ws !! (r, c) = Some x → r ≤ max_row ws.
Proof.
  intros H%elem_of_map_to_list. unfold max_row.
  destruct (map_to_list (_cells ws)) as [|y l] eqn:E.
  - by apply elem_of_nil in H.
  - apply max_list_elem_of_le.
    by apply (list_elem_of_fmap_2' (fst ∘ fst) _ (r, c, x)).
Qed.

Lemma populated_column_le ws r c x :
  _cells ws !! (r, c) = Some x → c ≤ max_column ws.
Proof.
  intros H%elem_of_map_to_list. unfold max_column.
  destruct (map_to_list (_cells ws)) as [|y l] eqn:E.
  - by apply elem_of_nil in H.
  - apply max_list_elem_of_le.
    by apply (list_elem_of_fmap_2' (snd ∘ fst) _ (r, c, x)).
Qed.

Lemma elem_of_visited ws cl :
  cl ∈ visited ws ↔
  ∃ r c, 1 ≤ r ≤ max_row ws ∧ 1 ≤ c ≤ max_column ws ∧ cl = cell ws r c.
Proof.
  unfold visited. rewrite list_elem_of_bind. split.
  - intros (r & (c & -> & Hc%elem_of_seq)%list_elem_of_fmap & Hr%elem_of_seq).
    exists r, c. split_and!; [lia..|done].
  - intros (r & c & Hr & Hc & ->). exists r. split.
    + apply list_elem_of_fmap_2. apply elem_of_seq. lia.
    + apply elem_of_seq. lia.
Qed.


Lemma populated_visited ws r c x :
  _cells ws !! (r, c) = Some x → 1 ≤ r → 1 ≤ c → cell ws r c ∈ visited ws.
Proof.
  intros H Hr Hc. apply elem_of_visited. exists r, c.
  pose proof (populated_row_le _ _ _ _ H).
  pose proof (populated_column_le _ _ _ _ H). split_and!; (lia || done).
Qed.

(** ** The comprehensive report *)

Section Composition.

Variable lib : libraries.

Lemma staged_Some bytes wb :
  load_workbook lib bytes = inr wb → staged lib (Some bytes) = inr wb.
Proof. intros H. unfold staged. by rewrite H. Qed.

(** C1. For every workbook (the buffer loads as [wb]), whatever the state
    of the temporary directory, [comprehensive_analysis] returns a report
    whose three sub-reports are exactly what [extract_comments],
    [extract_questions] and [detect_hidden_content] return when run
    directly on the same buffer, and whose summary repeats their totals:
    total_comments, total_questions, total_hidden_rows,
    total_hidden_columns, and worksheet_count as the number of worksheet
    entries of the hidden-content report. *)
Theorem comprehensive_analysis_composes filename bytes wb σ σ1 σ2 σ3 :
  load_workbook lib bytes = inr wb →
  ∃ r c q h,
    (comprehensive_analysis lib filename (Some bytes) σ).1 = inr r ∧
    (extract_comments lib filename (Some bytes) σ1).1 = inr c ∧
    (extract_questions lib filename (Some bytes) σ2).1 = inr q ∧
    (detect_hidden_content lib filename (Some bytes) σ3).1 = inr h ∧
    Comprehensive.comments r = c ∧
    Comprehensive.questions r = q ∧
    Comprehensive.hidden_content r = h ∧
    Comprehensive.total_comments (Comprehensive.summary r)
      = Comments.total_comments c ∧
    Comprehensive.total_questions (Comprehensive.summary r)
      = Questions.total_questions q ∧
    Comprehensive.total_hidden_rows (Comprehensive.summary r)
      = Hidden.total_hidden_rows h ∧
    Comprehensive.total_hidden_columns (Comprehensive.summary r)
      = Hidden.total_hidden_columns h ∧
    Comprehensive.worksheet_count (Comprehensive.summary r)
      = length (Hidden.worksheets h).
Proof.
  intros Hload. apply staged_Some in Hload.
  unfold comprehensive_analysis, M_bind.
  rewrite !extract_comments_run, !extract_questions_run,
    !detect_hidden_content_run, Hload. cbn [rbind fst].
  rewrite extract_comments_scan_resolved, extract_questions_scan_resolved,
    detect_hidden_content_scan_resolved.
  cbn [M_ret fst]. do 4 eexists. repeat split.
Qed.

End Composition.

Lemma comprehensive_analysis_composes_witness :
  load_workbook (test_libraries [question_sheet]) [] = inr [question_sheet] ∧
  ∃ r c,
    (comprehensive_analysis (test_libraries [question_sheet])
       (JStr "book.xlsx") (Some []) ∅).1 = inr r ∧
    (extract_comments (test_libraries [question_sheet])
       (JStr "book.xlsx") (Some []) ∅).1 = inr c ∧
    Comprehensive.total_comments (Comprehensive.summary r)
      = Comments.total_comments c.
Proof.
  split; [reflexivity|].
  destruct (comprehensive_analysis_composes (test_libraries [question_sheet])
              (JStr "book.xlsx") [] [question_sheet] ∅ ∅ ∅ ∅ eq_refl)
    as (r & c & q & h & Hr & Hc & _ & _ & _ & _ & _ & Ht & _).
  exists r, c. split_and!; assumption.
Defined.

(** ** Hidden content *)

Lemma seq_strongly_sorted (start len : nat) :
  StronglySorted lt (seq start len).
Proof.
  revert start. induction len as [|len IH]; intros start; simpl.
  - constructor.
  - constructor; [apply IH|]. apply Forall_forall.
    intros n Hn%elem_of_seq. lia.
Qed.

Lemma filter_strongly_sorted {A} (R : relation A) (p : A → bool) (l : list A) :
  StronglySorted R l → StronglySorted R (List.filter p l).
Proof.
  induction 1 as [|x l _ IH Hx]; simpl; [constructor|].
  destruct (p x); [|done]. constructor; [done|].
  apply Forall_forall. intros y Hy%list_elem_of_In%filter_In.
  rewrite Forall_forall in Hx. apply Hx, list_elem_of_In, Hy.
Qed.

Lemma true_hidden_rows_sorted ws : StronglySorted lt (true_hidden_rows ws).
Proof. apply filter_strongly_sorted, seq_strongly_sorted. Qed.

Lemma true_hidden_columns_sorted ws :
  StronglySorted lt (true_hidden_columns ws).
Proof. apply filter_strongly_sorted, seq_strongly_sorted. Qed.

Lemma hidden_columns_of_true ws :
  hidden_columns_of ws = get_column_letter <$> true_hidden_columns ws.
Proof. by rewrite hidden_columns_of_filter, filter_fmap_bool. Qed.

Lemma resolve_length wb names :
  Forall (λ n, n ∈ sheetnames wb) names →
  length (resolve wb names) = length names.
Proof.
  intros H. rewrite <- (resolve_fst wb names H) at 2. by rewrite length_fmap.
Qed.

Section HiddenContent.

Variable lib : libraries.

Lemma detect_hidden_content_loaded filename bytes wb σ :
  load_workbook lib bytes = inr wb →
  (detect_hidden_content lib filename (Some bytes) σ).1
  = inr {| Hidden.filename := filename;
           Hidden.total_hidden_rows :=
             sum_list ((λ s, length (hidden_rows_of s.2))
                       <$> resolve wb (sheetnames wb));
           Hidden.total_hidden_columns :=
             sum_list ((λ s, length (hidden_columns_of s.2))
                       <$> resolve wb (sheetnames wb));
           Hidden.worksheets :=
             (λ s, sheet_data s.1 s.2) <$> resolve wb (sheetnames wb) |}.
Proof.
  intros Hload%(staged_Some lib).
  rewrite detect_hidden_content_run, Hload. cbn [rbind fst].
  apply detect_hidden_content_scan_resolved.
Qed.

(** C2. For every workbook and every worksheet of it (the [i]-th sheet
    name selects [ws]), the [i]-th entry of the report of
    [detect_hidden_content] lists at most 50 hidden rows and at most 50
    hidden columns, namely the first 50 of the hidden row numbers and the
    letters of the first 50 of the hidden column indices, both taken in
    ascending order, while hidden_row_count and hidden_column_count are the
    numbers of all hidden rows and columns of the bounding box, and
    total_hidden_rows and total_hidden_columns are the sums of these
    untruncated counts. *)
Theorem detect_hidden_content_caps_lists filename bytes wb σ :
  load_workbook lib bytes = inr wb →
  ∃ r,
    (detect_hidden_content lib filename (Some bytes) σ).1 = inr r ∧
    length (Hidden.worksheets r) = length wb ∧
    (∀ i name, sheetnames wb !! i = Some name →
       ∃ ws e,
         getitem wb name = inr ws ∧
         Hidden.worksheets r !! i = Some e ∧
         length (Hidden.hidden_rows e) ≤ 50 ∧
         length (Hidden.hidden_columns e) ≤ 50 ∧
         Hidden.hidden_rows e = take 50 (true_hidden_rows ws) ∧
         Hidden.hidden_columns e
           = get_column_letter <$> take 50 (true_hidden_columns ws) ∧
         StronglySorted lt (true_hidden_rows ws) ∧
         StronglySorted lt (true_hidden_columns ws) ∧
         Hidden.hidden_row_count e = length (true_hidden_rows ws) ∧
         Hidden.hidden_column_count e = length (true_hidden_columns ws)) ∧
    Hidden.total_hidden_rows r
      = sum_list (Hidden.hidden_row_count <$> Hidden.worksheets r) ∧
    Hidden.total_hidden_columns r
      = sum_list (Hidden.hidden_column_count <$> Hidden.worksheets r).
Proof.
  intros Hload. eexists. split; [by apply detect_hidden_content_loaded|].
  cbn [Hidden.worksheets Hidden.total_hidden_rows
       Hidden.total_hidden_columns].
  split_and!.
  - rewrite length_fmap, resolve_length by apply sheetnames_all.
    unfold sheetnames. by rewrite length_fmap.
  - intros i name Hi.
    destruct (resolve_lookup wb _ i name (sheetnames_all wb) Hi)
      as (ws & Hws & Hres).
    exists ws, (sheet_data name ws). rewrite list_lookup_fmap, Hres.
    unfold sheet_data. cbn.
    rewrite hidden_rows_of_filter, hidden_columns_of_true.
    fold (true_hidden_rows ws).
    rewrite <- fmap_take, !length_fmap, !length_take.
    pose proof (true_hidden_rows_sorted ws).
    pose proof (true_hidden_columns_sorted ws).
    split_and!; (done || lia).
  - rewrite <- list_fmap_compose. done.
  - rewrite <- list_fmap_compose. done.
Qed.

(** C10. For every worksheet, the entry of [detect_hidden_content] has
    hidden = true exactly when the sheet's visibility state is the
    string 'hidden'; a sheet whose state is 'veryHidden' is reported
    with hidden = false. *)
Theorem detect_hidden_content_sheet_flag filename bytes wb σ :
  load_workbook lib bytes = inr wb →
  ∃ r,
    (detect_hidden_content lib filename (Some bytes) σ).1 = inr r ∧
    ∀ i name, sheetnames wb !! i = Some name →
      ∃ ws e,
        getitem wb name = inr ws ∧
        Hidden.worksheets r !! i = Some e ∧
        Hidden.sheet e = name ∧
        (Hidden.hidden e = true ↔ sheet_state ws = "hidden") ∧
        (sheet_state ws = "veryHidden" → Hidden.hidden e = false).
Proof.
  intros Hload. eexists. split; [by apply detect_hidden_content_loaded|].
  cbn [Hidden.worksheets]. intros i name Hi.
  destruct (resolve_lookup wb _ i name (sheetnames_all wb) Hi)
    as (ws & Hws & Hres).
  exists ws, (sheet_data name ws). rewrite list_lookup_fmap, Hres.
  unfold sheet_data. cbn. split_and!; [done..| |].
  - apply String.eqb_eq.
  - by intros ->.
Qed.

(** When the sheet names are pairwise different, the report has one entry
    per worksheet of the workbook, in workbook order. *)
Lemma detect_hidden_content_unique_titles filename bytes wb σ :
  load_workbook lib bytes = inr wb →
  NoDup (sheetnames wb) →
  ∃ r,
    (detect_hidden_content lib filename (Some bytes) σ).1 = inr r ∧
    Hidden.worksheets r = (λ ws, sheet_data (title ws) ws) <$> wb.
Proof.
  intros Hload Hnd. eexists.
  split; [by apply detect_hidden_content_loaded|].
  cbn [Hidden.worksheets]. rewrite resolve_unique_titles by done.
  by rewrite <- list_fmap_compose.
Qed.

End HiddenContent.

(** The scenario of a hidden row: row 5 is hidden and no column is. *)
Example row_five_hidden :
  (detect_hidden_content (test_libraries [row_five_hidden_sheet])
     (JStr "plan.xlsx") (Some []) ∅).1
  = inr {| Hidden.filename := JStr "plan.xlsx";
           Hidden.total_hidden_rows := 1;
           Hidden.total_hidden_columns := 0;
           Hidden.worksheets :=
             [ {| Hidden.sheet := "Plan";
                  Hidden.hidden := false;
                  Hidden.row_count := 6;
                  Hidden.column_count := 2;
                  Hidden.hidden_row_count := 1;
                  Hidden.hidden_column_count := 0;
                  Hidden.hidden_rows := [5];
                  Hidden.hidden_columns := [] |} ] |}.
Proof. vm_compute. reflexivity. Qed.

Lemma detect_hidden_content_caps_lists_witness :
  load_workbook (test_libraries [many_hidden_sheet]) [] = inr [many_hidden_sheet] ∧
  ∃ r,
    (detect_hidden_content (test_libraries [many_hidden_sheet])
       JNull (Some []) ∅).1 = inr r ∧
    length (Hidden.worksheets r) = 1.
Proof.
  split; [reflexivity|].
  destruct (detect_hidden_content_caps_lists
              (test_libraries [many_hidden_sheet]) JNull []
              [many_hidden_sheet] ∅ eq_refl) as (r & Hr & Hlen & _).
  exists r. split; assumption.
Defined.

Lemma detect_hidden_content_sheet_flag_witness :
  load_workbook (test_libraries [many_hidden_sheet]) [] = inr [many_hidden_sheet] ∧
  ∃ r e,
    (detect_hidden_content (test_libraries [many_hidden_sheet])
       JNull (Some []) ∅).1 = inr r ∧
    Hidden.worksheets r !! 0 = Some e ∧
    Hidden.hidden e = false.
Proof.
  split; [reflexivity|].
  destruct (detect_hidden_content_sheet_flag
              (test_libraries [many_hidden_sheet]) JNull []
              [many_hidden_sheet] ∅ eq_refl) as (r & Hr & Hall).
  destruct (Hall 0 "Data"%string eq_refl)
    as (ws & e & Hws & He & _ & _ & Hvery).
  exists r, e. split_and!; [assumption..|].
  apply Hvery. injection Hws as <-. reflexivity.
Defined.

(** ** Counts and list lengths *)

Section Counts.

Variable lib : libraries.

Lemma extract_comments_loaded filename bytes wb σ :
  load_workbook lib bytes = inr wb →
  (extract_comments lib filename (Some bytes) σ).1
  = inr {| Comments.filename := filename;
           Comments.total_comments :=
             sum_list ((λ s, length (sheet_comments s.2))
                       <$> resolve wb (sheetnames wb));
           Comments.worksheets :=
             omap comments_entry_of (resolve wb (sheetnames wb)) |}.
Proof.
  intros Hload%(staged_Some lib).
  rewrite extract_comments_run, Hload. cbn [rbind fst].
  apply extract_comments_scan_resolved.
Qed.

Lemma extract_questions_loaded filename bytes wb σ :
  load_workbook lib bytes = inr wb →
  (extract_questions lib filename (Some bytes) σ).1
  = inr {| Questions.filename := filename;
           Questions.total_questions :=
             sum_list ((λ s, length (sheet_questions s.2))
                       <$> resolve wb (sheetnames wb));
           Questions.worksheets :=
             omap questions_entry_of (resolve wb (sheetnames wb)) |}.
Proof.
  intros Hload%(staged_Some lib).
  rewrite extract_questions_run, Hload. cbn [rbind fst].
  apply extract_questions_scan_resolved.
Qed.

(** C3, as amended.  For every workbook: in every worksheet entry of
    [extract_comments], comment_count is the length of comments; in every
    worksheet entry of [extract_questions], question_count is the length
    of questions; in every worksheet entry of [detect_hidden_content],
    the hidden_rows list has min(hidden_row_count, 50) elements and the
    hidden_columns list has min(hidden_column_count, 50) elements, so the
    count is the length of its list exactly when it does not exceed 50. *)
Theorem counts_and_list_lengths filename bytes wb σ :
  load_workbook lib bytes = inr wb →
  (∃ c, (extract_comments lib filename (Some bytes) σ).1 = inr c ∧
        Forall (λ e, Comments.comment_count e = length (Comments.comments e))
               (Comments.worksheets c)) ∧
  (∃ q, (extract_questions lib filename (Some bytes) σ).1 = inr q ∧
        Forall (λ e, Questions.question_count e
                     = length (Questions.questions e))
               (Questions.worksheets q)) ∧
  (∃ h, (detect_hidden_content lib filename (Some bytes) σ).1 = inr h ∧
        Forall (λ e, length (Hidden.hidden_rows e)
                     = Hidden.hidden_row_count e `min` 50 ∧
                     length (Hidden.hidden_columns e)
                     = Hidden.hidden_column_count e `min` 50)
               (Hidden.worksheets h)).
Proof.
  intros Hload. split_and!.
  - eexists. split; [by apply extract_comments_loaded|].
    cbn [Comments.worksheets]. apply Forall_forall.
    intros e ([name ws] & _ & He)%list_elem_of_omap.
    unfold comments_entry_of in He. cbn [fst snd] in He.
    destruct (nonempty (sheet_comments ws)); by simplify_eq.
  - eexists. split; [by apply extract_questions_loaded|].
    cbn [Questions.worksheets]. apply Forall_forall.
    intros e ([name ws] & _ & He)%list_elem_of_omap.
    unfold questions_entry_of in He. cbn [fst snd] in He.
    destruct (nonempty (sheet_questions ws)); by simplify_eq.
  - eexists. split; [by apply detect_hidden_content_loaded|].
    cbn [Hidden.worksheets]. apply Forall_forall.
    intros e ([name ws] & -> & _)%list_elem_of_fmap.
    unfold sheet_data. cbn. rewrite !length_take. lia.
Qed.

End Counts.

Lemma counts_and_list_lengths_witness :
  load_workbook (test_libraries [many_hidden_sheet]) [] = inr [many_hidden_sheet] ∧
  ∃ h,
    (detect_hidden_content (test_libraries [many_hidden_sheet])
       JNull (Some []) ∅).1 = inr h ∧
    Forall (λ e, length (Hidden.hidden_rows e)
                 = Hidden.hidden_row_count e `min` 50 ∧
                 length (Hidden.hidden_columns e)
                 = Hidden.hidden_column_count e `min` 50)
           (Hidden.worksheets h).
Proof.
  split; [reflexivity|].
  exact (proj2 (proj2 (counts_and_list_lengths
                         (test_libraries [many_hidden_sheet]) JNull []
                         [many_hidden_sheet] ∅ eq_refl))).
Defined.

(** C3, as stated, fails: on a workbook whose sheet has 51 hidden rows,
    [detect_hidden_content] reports hidden_row_count = 51 next to a
    hidden_rows list of 50 elements. *)
Lemma hidden_row_count_exceeds_list :
  ∃ h e,
    (detect_hidden_content (test_libraries [many_hidden_sheet])
       JNull (Some []) ∅).1 = inr h ∧
    Hidden.worksheets h = [e] ∧
    Hidden.hidden_row_count e = 51 ∧
    length (Hidden.hidden_rows e) = 50 ∧
    Hidden.hidden_row_count e ≠ length (Hidden.hidden_rows e).
Proof.
  eexists _, _. split_and!.
  - vm_compute. reflexivity.
  - reflexivity.
  - reflexivity.
  - reflexivity.
  - discriminate.
Qed.

(** ** Questions *)







Lemma resolve_elem_of wb name ws :
  name ∈ sheetnames wb → getitem wb name = inr ws →
  (name, ws) ∈ resolve wb (sheetnames wb).
Proof.
  intros Hin Hws. unfold resolve. apply list_elem_of_omap.
  exists name. split; [done|]. by rewrite Hws.
Qed.





Section QuestionsPass.

Variable lib : libraries.


End QuestionsPass.


(** C4: the code at the failing input.  The cell to the right of the
    question holds the number 0, whose stringification is "0"; the answer
    reported is the empty string, as if that cell were empty.  The rest
    of the record is as claimed: the question's cell and text, and the
    coordinate of the cell to the right. *)
Theorem extract_questions_drops_zero_answer :
  py_str (PyInt 0) = "0"%string ∧
  _cells zero_answer_sheet !! (1, 2) = Some (PyInt 0, None) ∧
  (extract_questions (test_libraries [zero_answer_sheet])
     (JStr "book.xlsx") (Some []) ∅).1
  = inr {| Questions.filename := JStr "book.xlsx";
           Questions.total_questions := 1;
           Questions.worksheets :=
             [ {| Questions.sheet := "Survey";
                  Questions.question_count := 1;
                  Questions.questions :=
                    [ {| Questions.cell := "A1";
                         Questions.question := "How many?";
                         Questions.answer_cell := Some "B1"%string;
                         Questions.answer := "" |} ] |} ] |}.
Proof.
  split; [reflexivity|]. split; [reflexivity|].
  vm_compute. reflexivity.
Qed.

(** ** Comments *)

(** What [extract_comments] records for a commented cell: the
    coordinate, the comment text, the author or "Unknown" when the comment
    has no author attribute, and as value the stringified value when the
    value is true in a condition, the empty string otherwise (so also for
    a cell without value). *)
Lemma comment_entry_fields c cm :
  Comments.cell (comment_entry c cm) = coordinate c ∧
  Comments.comment (comment_entry c cm) = text cm ∧
  (author cm = None → Comments.author (comment_entry c cm) = "Unknown"%string) ∧
  (∀ a, author cm = Some a → Comments.author (comment_entry c cm) = a) ∧
  (value c = PyNone → Comments.value (comment_entry c cm) = ""%string) ∧
  (truthy (value c) = true →
     Comments.value (comment_entry c cm) = py_str (value c)) ∧
  (truthy (value c) = false → Comments.value (comment_entry c cm) = ""%string).
Proof.
  unfold comment_entry, getattr_author. cbn.
  split_and!; [done | done | by intros -> | by intros a -> | by intros ->
              | by intros -> | by intros ->].
Qed.

(** C5: the code at the failing input.  A commented cell holding the
    number 0 has a value, whose stringification is "0", yet
    [extract_comments] records the empty string as its value. *)
Theorem extract_comments_drops_zero_value :
  py_str (PyInt 0) = "0"%string ∧
  (extract_comments (test_libraries [commented_sheet])
     (JStr "book.xlsx") (Some []) ∅).1
  = inr {| Comments.filename := JStr "book.xlsx";
           Comments.total_comments := 2;
           Comments.worksheets :=
             [ {| Comments.sheet := "Budget";
                  Comments.comment_count := 2;
                  Comments.comments :=
                    [ {| Comments.cell := "A1";
                         Comments.value := "";
                         Comments.comment := "check this";
                         Comments.author := "Ann" |};
                      {| Comments.cell := "B2";
                         Comments.value := "total";
                         Comments.comment := "sum of B";
                         Comments.author := "Unknown" |} ] |} ] |}.
Proof. split; vm_compute; reflexivity. Qed.

(** ** The dispatcher *)

Section Dispatch.

Variable lib : libraries.

Lemma staged_failure file_buffer e :
  staged lib file_buffer = inl e → e = StageError ∨ ∃ cause, e = LoadError cause.
Proof.
  unfold staged. destruct file_buffer as [bytes|].
  - destruct (load_workbook lib bytes) as [cause|wb]; [|done].
    intros [= <-]. right. by exists cause.
  - intros [= <-]. by left.
Qed.

(** A pass fails only when staging or loading fails. *)
Lemma extract_comments_failure filename file_buffer σ e :
  (extract_comments lib filename file_buffer σ).1 = inl e →
  staged lib file_buffer = inl e.
Proof.
  rewrite extract_comments_run. cbn [fst].
  destruct (staged lib file_buffer) as [e'|wb]; cbn [rbind];
    [by intros [= ->]|].
  by rewrite extract_comments_scan_resolved.
Qed.

Lemma extract_questions_failure filename file_buffer σ e :
  (extract_questions lib filename file_buffer σ).1 = inl e →
  staged lib file_buffer = inl e.
Proof.
  rewrite extract_questions_run. cbn [fst].
  destruct (staged lib file_buffer) as [e'|wb]; cbn [rbind];
    [by intros [= ->]|].
  by rewrite extract_questions_scan_resolved.
Qed.

Lemma detect_hidden_content_failure filename file_buffer σ e :
  (detect_hidden_content lib filename file_buffer σ).1 = inl e →
  staged lib file_buffer = inl e.
Proof.
  rewrite detect_hidden_content_run. cbn [fst].
  destruct (staged lib file_buffer) as [e'|wb]; cbn [rbind];
    [by intros [= ->]|].
  by rewrite detect_hidden_content_scan_resolved.
Qed.

Lemma comprehensive_analysis_failure filename file_buffer σ e :
  (comprehensive_analysis lib filename file_buffer σ).1 = inl e →
  staged lib file_buffer = inl e.
Proof.
  unfold comprehensive_analysis, M_bind.
  rewrite extract_comments_run.
  destruct (staged lib file_buffer) as [e'|wb] eqn:Hst; cbn [rbind];
    [by intros [= ->]|].
  rewrite extract_comments_scan_resolved, extract_questions_run, Hst.
  cbn [rbind].
  rewrite extract_questions_scan_resolved, detect_hidden_content_run, Hst.
  cbn [rbind]. by rewrite detect_hidden_content_scan_resolved.
Qed.

Lemma listed_cases tool_name :
  listed tool_name = true →
  tool_name = JStr "extract_comments" ∨
  tool_name = JStr "extract_questions" ∨
  tool_name = JStr "detect_hidden_content" ∨
  tool_name = JStr "comprehensive_analysis".
Proof.
  destruct tool_name as [| | |s| |]; try discriminate.
  unfold listed. cbn [tool_names TOOLS fmap list_fmap Tool.name existsb
                      json_eq_str].
  rewrite !Bool.orb_true_iff, !String.eqb_eq.
  intros [->|[->|[->|[->|?]]]]; auto; discriminate.
Qed.

Lemma listed_names tool_name :
  listed tool_name = true ↔ ∃ name, name ∈ tool_names ∧ tool_name = JStr name.
Proof.
  split.
  - intros H. unfold tool_names. cbn.
    destruct (listed_cases _ H) as [-> | [-> | [-> | ->]]];
      eexists; split; [|reflexivity| |reflexivity| |reflexivity| |reflexivity];
      set_solver.
  - intros (name & Hin & ->). unfold tool_names in Hin. cbn in Hin.
    rewrite !elem_of_cons, elem_of_nil in Hin.
    by destruct Hin as [->|[->|[->|[->|[]]]]].
Qed.

Lemma listed_false tool_name :
  listed tool_name = false →
  json_eq_str tool_name "extract_comments" = false ∧
  json_eq_str tool_name "extract_questions" = false ∧
  json_eq_str tool_name "detect_hidden_content" = false ∧
  json_eq_str tool_name "comprehensive_analysis" = false.
Proof.
  unfold listed. cbn [tool_names TOOLS fmap list_fmap Tool.name existsb].
  rewrite !Bool.orb_false_iff. tauto.
Qed.

(** A pass on a missing buffer fails in staging and leaves the empty
    temporary file behind. *)
Lemma call_tool_without_buffer tool_name filename σ :
  listed tool_name = true →
  call_tool lib tool_name filename None σ
  = (inl StageError, <[fresh (dom σ) := []]> σ).
Proof.
  intros H. destruct (listed_cases _ H) as [-> | [-> | [-> | ->]]];
    reflexivity.
Qed.

Lemma call_tool_known_failure tool_name filename file_buffer σ e :
  listed tool_name = true →
  (call_tool lib tool_name filename file_buffer σ).1 = inl e →
  staged lib file_buffer = inl e.
Proof.
  intros H. destruct (listed_cases _ H) as [-> | [-> | [-> | ->]]];
    cbn; unfold M_bind.
  - destruct (extract_comments lib filename file_buffer σ) as [[e'|r] σ']
      eqn:E; [|done].
    intros [= ->]. apply (extract_comments_failure filename file_buffer σ).
    by rewrite E.
  - destruct (extract_questions lib filename file_buffer σ) as [[e'|r] σ']
      eqn:E; [|done].
    intros [= ->]. apply (extract_questions_failure filename file_buffer σ).
    by rewrite E.
  - destruct (detect_hidden_content lib filename file_buffer σ)
      as [[e'|r] σ'] eqn:E; [|done].
    intros [= ->].
    apply (detect_hidden_content_failure filename file_buffer σ).
    by rewrite E.
  - destruct (comprehensive_analysis lib filename file_buffer σ)
      as [[e'|r] σ'] eqn:E; [|done].
    intros [= ->].
    apply (comprehensive_analysis_failure filename file_buffer σ).
    by rewrite E.
Qed.

Lemma call_tool_unknown tool_name filename file_buffer σ :
  listed tool_name = false →
  call_tool lib tool_name filename file_buffer σ
  = (inl (UnknownTool tool_name), σ).
Proof.
  intros (H1 & H2 & H3 & H4)%listed_false. unfold call_tool.
  by rewrite H1, H2, H3, H4.
Qed.

Lemma handle_request_object m σ :
  handle_request lib (JObj m) σ
  = try_except
      (handle_request_try lib (JObj m) (default JNull (m !! "method"))
         (default (JObj ∅) (m !! "params")) (default (JNum 0) (m !! "id")))
      (λ e, M_ret (internal_error lib (default (JNum 0) (m !! "id")) e)) σ.
Proof. reflexivity. Qed.

Lemma handle_request_not_object j σ :
  is_object j = false →
  handle_request lib j σ = (inl (AttributeError (type_name j) "get"), σ).
Proof. by destruct j. Qed.

Lemma get_failure d key dflt e :
  get d key dflt = inl e → e = AttributeError (type_name d) "get".
Proof. destruct d; cbn; by intros [=]. Qed.

Lemma request_file_buffer_failure request e :
  request_file_buffer lib request = inl e →
  (∃ cause, e = DecodeError cause) ∨ (∃ type, e = B64TypeError type).
Proof.
  unfold request_file_buffer. destruct request as [| | | | |m]; try done.
  destruct (m !! "fileContent") as [fc|]; [|done].
  unfold b64decode.
  destruct fc as [| | |s| |]; cbn;
    try (intros [= <-]; right; by eexists).
  destruct (b64decode_str lib s) as [cause|bytes]; cbn; [|done].
  intros [= <-]. left. by eexists.
Qed.

(** Whatever the [try] block returns carries the request id. *)
Lemma handle_request_try_id request method params req_id σ resp :
  (handle_request_try lib request method params req_id σ).1 = inr resp →
  Rpc.id resp = req_id.
Proof.
  unfold handle_request_try.
  destruct (json_eq_str method "initialize"); [by intros [= <-]|].
  destruct (json_eq_str method "tools/list"); [by intros [= <-]|].
  destruct (json_eq_str method "tools/call"); [|done].
  unfold M_bind, lift.
  destruct (get params "name" JNull) as [?|tool_name]; [done|].
  destruct (get params "arguments" (JObj ∅)) as [?|arguments]; [done|].
  destruct (get arguments "filename" JNull) as [?|filename]; [done|].
  destruct (request_file_buffer lib request) as [?|file_buffer]; [done|].
  destruct (call_tool lib tool_name filename file_buffer σ) as [[?|r] σ'];
    [done|].
  by intros [= <-].
Qed.

End Dispatch.

Section Responses.

Variable lib : libraries.

(** C6, as amended.  For every request line answered by [main]: (1) a
    line that is not valid JSON gets the response with id 0 and error
    code -32700, and so does a line that is valid JSON but not an object,
    although there the failure is raised by [handle_request]; (2) for a
    line that decodes to an object the response carries the object's id,
    or 0 when it has none, and every failure of the try block (load
    failures, unknown tools and methods among them) gives the error
    response with code -32603 whose data is the cause string, while a
    result of the try block is passed through; (3) a method other than
    initialize, tools/list and tools/call is such a failure. *)
Theorem respond_error_codes line σ :
  (∀ cause, json_loads lib line = inl cause →
     (respond lib line σ).1
     = {| Rpc.jsonrpc := "2.0"; Rpc.id := JNum 0;
          Rpc.body := Rpc.error {| Rpc.code := -32700;
                                   Rpc.message := "Parse error";
                                   Rpc.data := cause |} |}) ∧
  (∀ j, json_loads lib line = inr j → is_object j = false →
     (respond lib line σ).1
     = {| Rpc.jsonrpc := "2.0"; Rpc.id := JNum 0;
          Rpc.body :=
            Rpc.error {| Rpc.code := -32700;
                         Rpc.message := "Parse error";
                         Rpc.data :=
                           exn_str lib (AttributeError (type_name j) "get")
                      |} |}) ∧
  (∀ m, json_loads lib line = inr (JObj m) →
     let req_id := default (JNum 0) (m !! "id") in
     let attempt :=
       (handle_request_try lib (JObj m) (default JNull (m !! "method"))
          (default (JObj ∅) (m !! "params")) req_id σ).1 in
     Rpc.id (respond lib line σ).1 = req_id ∧
     (∀ e, attempt = inl e →
        (respond lib line σ).1
        = {| Rpc.jsonrpc := "2.0"; Rpc.id := req_id;
             Rpc.body := Rpc.error {| Rpc.code := -32603;
                                      Rpc.message := "Internal error";
                                      Rpc.data := exn_str lib e |} |}) ∧
     (∀ resp, attempt = inr resp → (respond lib line σ).1 = resp)) ∧
  (∀ request method params req_id,
     json_eq_str method "initialize" = false →
     json_eq_str method "tools/list" = false →
     json_eq_str method "tools/call" = false →
     handle_request_try lib request method params req_id σ
     = (inl (UnknownMethod method), σ)).
Proof.
  split_and!.
  - intros cause H. unfold respond, M_bind, lift, loads. by rewrite H.
  - intros j H Hj. unfold respond, M_bind, lift, loads. rewrite H.
    by rewrite handle_request_not_object.
  - intros m H req_id attempt.
    assert ((respond lib line σ).1
            = match attempt with
              | inl e => internal_error lib req_id e
              | inr resp => resp
              end) as Hresp.
    { unfold respond, M_bind, lift, loads. rewrite H.
      rewrite handle_request_object. unfold try_except, attempt, req_id.
      by destruct (handle_request_try _ _ _ _ _ _) as [[e|resp] σ']. }
    rewrite Hresp. split_and!.
    + destruct attempt as [e|resp] eqn:E; [done|].
      by eapply handle_request_try_id.
    + by intros e ->.
    + by intros resp ->.
  - intros request method params req_id H1 H2 H3.
    unfold handle_request_try. by rewrite H1, H2, H3.
Qed.

End Responses.

(** An [initialize] request and a request for an unknown method. *)
Example initialize_response :
  handle_request (test_libraries [])
    (JObj {[ "method" := JStr "initialize"; "id" := JNum 1 ]}) ∅
  = (inr {| Rpc.jsonrpc := "2.0"; Rpc.id := JNum 1;
            Rpc.body :=
              Rpc.result (InitializeResult "2024-11-05"
                            (JObj {[ "tools" := JObj ∅ ]})
                            "excel-python-mcp" "1.0.0") |}, ∅) ∧
  handle_request (test_libraries [])
    (JObj {[ "method" := JStr "resources/list"; "id" := JStr "r-9" ]}) ∅
  = (inr {| Rpc.jsonrpc := "2.0"; Rpc.id := JStr "r-9";
            Rpc.body :=
              Rpc.error {| Rpc.code := -32603;
                           Rpc.message := "Internal error";
                           Rpc.data := "Unknown method: resources/list" |} |},
     ∅).
Proof. split; vm_compute; reflexivity. Qed.

Lemma respond_error_codes_witness :
  json_loads (test_libraries []) "[]" = inr (JArr []) ∧
  is_object (JArr []) = false ∧
  (respond (test_libraries []) "[]" ∅).1
  = {| Rpc.jsonrpc := "2.0"; Rpc.id := JNum 0;
       Rpc.body :=
         Rpc.error {| Rpc.code := -32700;
                      Rpc.message := "Parse error";
                      Rpc.data :=
                        exn_str (test_libraries [])
                          (AttributeError (type_name (JArr [])) "get") |} |}.
Proof.
  split; [reflexivity|]. split; [reflexivity|].
  exact (proj1 (proj2 (respond_error_codes (test_libraries []) "[]" ∅))
           (JArr []) eq_refl eq_refl).
Defined.

(** C6, as stated, fails: the line [[]] is valid JSON, the failure is
    raised inside [handle_request] (an array has no [get]), and yet the
    response carries code -32700, not -32603. *)
Lemma dispatch_failure_reported_as_parse_error :
  json_loads (test_libraries []) "[]" = inr (JArr []) ∧
  (handle_request (test_libraries []) (JArr []) ∅).1
  = inl (AttributeError "list" "get") ∧
  Rpc.body (respond (test_libraries []) "[]" ∅).1
  = Rpc.error {| Rpc.code := -32700;
                 Rpc.message := "Parse error";
                 Rpc.data := "'list' object has no attribute 'get'" |} ∧
  Rpc.body (respond (test_libraries []) "[]" ∅).1
  ≠ Rpc.error {| Rpc.code := -32603;
                 Rpc.message := "Internal error";
                 Rpc.data := "'list' object has no attribute 'get'" |}.
Proof. split_and!; [reflexivity..|discriminate]. Qed.

Section Catalog.

Variable lib : libraries.

(** C7, as amended.  [tools/list] returns the static catalog of exactly
    four descriptors; a [tools/call] naming a tool of the catalog never
    fails with UnknownTool, and with a minimal valid argument set (params
    and arguments are objects, or arguments are absent; fileContent is
    absent or decodes) it is dispatched to the pass of that name; a
    [tools/call] with such arguments and fileContent naming a tool that is
    not in the catalog fails with UnknownTool. *)
Theorem tool_catalog_dispatch σ :
  tool_names = ["extract_comments"; "extract_questions";
                "detect_hidden_content"; "comprehensive_analysis"]%string ∧
  length TOOLS = 4 ∧
  (∀ tool_name,
     listed tool_name = true ↔
     ∃ name, name ∈ tool_names ∧ tool_name = JStr name) ∧
  (∀ request params req_id,
     handle_request_try lib request (JStr "tools/list") params req_id σ
     = (inr {| Rpc.jsonrpc := "2.0"; Rpc.id := req_id;
               Rpc.body := Rpc.result (ToolsListResult TOOLS) |}, σ)) ∧
  (∀ filename file_buffer,
     call_tool lib (JStr "extract_comments") filename file_buffer
     = (do! r ← extract_comments lib filename file_buffer;
        M_ret (CommentsResult r)) ∧
     call_tool lib (JStr "extract_questions") filename file_buffer
     = (do! r ← extract_questions lib filename file_buffer;
        M_ret (QuestionsResult r)) ∧
     call_tool lib (JStr "detect_hidden_content") filename file_buffer
     = (do! r ← detect_hidden_content lib filename file_buffer;
        M_ret (HiddenResult r)) ∧
     call_tool lib (JStr "comprehensive_analysis") filename file_buffer
     = (do! r ← comprehensive_analysis lib filename file_buffer;
        M_ret (ComprehensiveResult r))) ∧
  (∀ request p req_id tool_name t,
     p !! "name" = Some tool_name → listed tool_name = true →
     (handle_request_try lib request (JStr "tools/call") (JObj p) req_id σ).1
     ≠ inl (UnknownTool t)) ∧
  (∀ m p req_id file_buffer,
     (p !! "arguments" = None ∨ ∃ a, p !! "arguments" = Some (JObj a)) →
     request_file_buffer lib (JObj m) = inr file_buffer →
     let tool_name := default JNull (p !! "name") in
     let filename :=
       match p !! "arguments" with
       | Some (JObj a) => default JNull (a !! "filename")
       | _ => JNull
       end in
     handle_request_try lib (JObj m) (JStr "tools/call") (JObj p) req_id σ
     = (do! r ← call_tool lib tool_name filename file_buffer;
        M_ret {| Rpc.jsonrpc := "2.0"; Rpc.id := req_id;
                 Rpc.body := Rpc.result (ToolsCallResult r) |}) σ ∧
     (listed tool_name = false →
      handle_request_try lib (JObj m) (JStr "tools/call") (JObj p) req_id σ
      = (inl (UnknownTool tool_name), σ))).
Proof.
  split_and!;
    [reflexivity | reflexivity | apply listed_names | reflexivity
    | by intros; split_and! | |].
  - intros request p req_id tool_name t Hp Hlisted.
    unfold handle_request_try. cbn [json_eq_str String.eqb Ascii.eqb Bool.eqb].
    unfold M_bind, lift. cbn [get]. rewrite Hp. cbn [default].
    destruct (get _ "filename" JNull) as [e|filename] eqn:Hget.
    { apply get_failure in Hget as ->. by intros [=]. }
    destruct (request_file_buffer lib request) as [e|file_buffer] eqn:Hbuf.
    { by apply request_file_buffer_failure in Hbuf as [[? ->]|[? ->]]. }
    unfold id.
    destruct (call_tool lib tool_name filename file_buffer σ)
      as [[e|r] σ'] eqn:E; [|done].
    cbn [fst]. intros [= ->].
    pose proof (call_tool_known_failure lib tool_name filename file_buffer σ
                  (UnknownTool t) Hlisted) as Hst.
    rewrite E in Hst. specialize (Hst eq_refl).
    by destruct (staged_failure lib _ _ Hst) as [?|[? ?]].
  - intros m p req_id file_buffer Hargs Hbuf tool_name filename.
    assert (handle_request_try lib (JObj m) (JStr "tools/call") (JObj p)
              req_id σ
            = (do! r ← call_tool lib tool_name filename file_buffer;
               M_ret {| Rpc.jsonrpc := "2.0"; Rpc.id := req_id;
                        Rpc.body := Rpc.result (ToolsCallResult r) |}) σ)
      as Hdispatch.
    { unfold handle_request_try.
      cbn [json_eq_str String.eqb Ascii.eqb Bool.eqb].
      unfold M_bind at 1 2 3 4, lift. cbn [get]. rewrite Hbuf.
      unfold filename, tool_name.
      by destruct Hargs as [->|[a ->]]. }
    split; [done|]. intros Hnot. rewrite Hdispatch. unfold M_bind.
    by rewrite call_tool_unknown.
Qed.

End Catalog.

Lemma tool_catalog_dispatch_witness :
  request_file_buffer (test_libraries [])
    (JObj {[ "method" := JStr "tools/call" ]}) = inr None ∧
  listed (JStr "no_such_tool") = false ∧
  handle_request_try (test_libraries [])
    (JObj {[ "method" := JStr "tools/call" ]}) (JStr "tools/call")
    (JObj {[ "name" := JStr "no_such_tool" ]}) (JNum 1) ∅
  = (inl (UnknownTool (JStr "no_such_tool")), ∅).
Proof.
  split; [reflexivity|]. split; [reflexivity|].
  destruct (tool_catalog_dispatch (test_libraries []) ∅)
    as (_ & _ & _ & _ & _ & _ & Hdispatch).
  destruct (Hdispatch {[ "method" := JStr "tools/call" ]}
              {[ "name" := JStr "no_such_tool" ]} (JNum 1) None)
    as [_ Hunknown]; [left; reflexivity | reflexivity |].
  apply Hunknown. reflexivity.
Defined.

(** C7, as stated, fails: a [tools/call] naming a tool outside the catalog
    whose fileContent is the number 5 fails in [base64.b64decode], before
    the tool name is looked at; the error is not UnknownTool. *)
Lemma unknown_tool_hidden_by_decode_failure :
  listed (JStr "no_such_tool") = false ∧
  handle_request_try (test_libraries []) (JObj unknown_tool_request)
    (JStr "tools/call") (JObj {[ "name" := JStr "no_such_tool" ]}) (JNum 0) ∅
  = (inl (B64TypeError "int"), ∅) ∧
  (handle_request (test_libraries []) (JObj unknown_tool_request) ∅).1
  = inr {| Rpc.jsonrpc := "2.0"; Rpc.id := JNum 0;
           Rpc.body :=
             Rpc.error
               {| Rpc.code := -32603;
                  Rpc.message := "Internal error";
                  Rpc.data :=
                    "argument should be a bytes-like object or ASCII string, not 'int'"
               |} |} ∧
  (handle_request (test_libraries []) (JObj unknown_tool_request) ∅).1
  ≠ inr (internal_error (test_libraries []) (JNum 0)
           (UnknownTool (JStr "no_such_tool"))).
Proof.
  split_and!.
  - reflexivity.
  - vm_compute. reflexivity.
  - vm_compute. reflexivity.
  - vm_compute. discriminate.
Qed.

(** ** The main loop *)

Section MainLoop.

Variable lib : libraries.

Lemma main_loop_serialized stdin σ : serialized stdin (main_loop lib stdin σ).1.
Proof.
  revert σ. induction stdin as [|line stdin IH]; intros σ; cbn [main_loop].
  - constructor.
  - destruct (strip_is_empty line) eqn:Hblank.
    + specialize (IH σ). destruct (main_loop lib stdin σ) as [trace σ'].
      by constructor.
    + destruct (respond lib line σ) as [response σ1].
      specialize (IH σ1). destruct (main_loop lib stdin σ1) as [trace σ2].
      by constructor.
Qed.

Lemma serialized_stdout_count stdin trace :
  serialized stdin trace →
  length (List.filter is_stdout trace)
  = length (List.filter (λ line, negb (strip_is_empty line)) stdin).
Proof.
  induction 1 as [|line stdin trace Hblank _ IH
                  |line stdin response trace Hblank _ IH]; cbn.
  - done.
  - by rewrite Hblank.
  - rewrite Hblank. cbn. by rewrite IH.
Qed.

(** C8, as amended.  The trace of [main] is the start-up banner on the
    diagnostic stream followed by a serialized trace: the input lines
    are read in order, each line that is not blank is followed by exactly
    one response on the output before the next line is read, and a blank
    line (white space only) is followed by none; so the number of
    responses is the number of non-blank lines. *)
Theorem main_one_response_per_request stdin σ :
  ∃ trace,
    (main lib stdin σ).1
    = Stderr "Python Excel Analysis MCP Server starting..." :: trace ∧
    serialized stdin trace ∧
    length (List.filter is_stdout trace)
    = length (List.filter (λ line, negb (strip_is_empty line)) stdin).
Proof.
  exists (main_loop lib stdin σ).1. split_and!.
  - unfold main. by destruct (main_loop lib stdin σ).
  - apply main_loop_serialized.
  - apply serialized_stdout_count, main_loop_serialized.
Qed.

End MainLoop.

(** C8, as stated, fails: a line holding only a line feed is read and no
    response line is written for it. *)
Lemma blank_line_gets_no_response :
  (main (test_libraries []) [String "010" EmptyString] ∅).1
  = [ Stderr "Python Excel Analysis MCP Server starting...";
      ReadLine (String "010" EmptyString) ] ∧
  List.filter is_stdout
    (main (test_libraries []) [String "010" EmptyString] ∅).1 = [].
Proof. split; reflexivity. Qed.

(** ** Where the workbook bytes come from *)

Section FileBuffer.

Variable lib : libraries.

Lemma call_tool_filename tool_name filename filename' file_buffer σ σ' :
  (call_tool lib tool_name filename' file_buffer σ').1
  = match (call_tool lib tool_name filename file_buffer σ).1 with
    | inl e => inl e
    | inr r => inr (with_filename filename' r)
    end.
Proof.
  unfold call_tool, comprehensive_analysis.
  repeat (destruct (json_eq_str tool_name _); [
    unfold M_bind;
    rewrite ?extract_comments_run, ?extract_questions_run,
      ?detect_hidden_content_run;
    destruct (staged lib file_buffer) as [e|wb] eqn:Hst; cbn [rbind];
    [reflexivity|];
    rewrite ?extract_comments_scan_resolved,
      ?extract_questions_run, ?Hst; cbn [rbind];
    rewrite ?extract_questions_scan_resolved,
      ?detect_hidden_content_run, ?Hst; cbn [rbind];
    rewrite ?detect_hidden_content_scan_resolved; reflexivity |]).
  reflexivity.
Qed.

(** C9, as amended.  For every [tools/call] request with a recognized
    tool name and no top-level fileContent member the response is an
    error with code -32603; when moreover the arguments are an object or
    absent, the handler passes None as file buffer and the failure is
    the adapter's failure to stage it, which leaves one empty temporary
    file behind.  The buffer a tool receives is None or the decoded
    fileContent, and the filename argument only ever reaches the
    filename members of the report: a call with another filename has the
    same outcome up to those members. *)
Theorem call_without_file_content_fails m p tool_name σ :
  m !! "method" = Some (JStr "tools/call") →
  m !! "params" = Some (JObj p) →
  p !! "name" = Some tool_name →
  listed tool_name = true →
  m !! "fileContent" = None →
  let req_id := default (JNum 0) (m !! "id") in
  (∃ e, (handle_request lib (JObj m) σ).1
        = inr {| Rpc.jsonrpc := "2.0"; Rpc.id := req_id;
                 Rpc.body :=
                   Rpc.error {| Rpc.code := -32603;
                                Rpc.message := "Internal error";
                                Rpc.data := exn_str lib e |} |}) ∧
  ((p !! "arguments" = None ∨ ∃ a, p !! "arguments" = Some (JObj a)) →
   request_file_buffer lib (JObj m) = inr None ∧
   handle_request lib (JObj m) σ
   = (inr (internal_error lib req_id StageError),
      <[fresh (dom σ) := []]> σ)) ∧
  (∀ request bytes,
     request_file_buffer lib request = inr (Some bytes) →
     ∃ m' file_content,
       request = JObj m' ∧ m' !! "fileContent" = Some file_content ∧
       b64decode lib file_content = inr bytes) ∧
  (∀ name filename filename' file_buffer σ1 σ2,
     (call_tool lib name filename' file_buffer σ2).1
     = match (call_tool lib name filename file_buffer σ1).1 with
       | inl e => inl e
       | inr r => inr (with_filename filename' r)
       end).
Proof.
  intros Hmethod Hparams Hname Hlisted Hfc req_id.
  assert (request_file_buffer lib (JObj m) = inr None) as Hbuf.
  { unfold request_file_buffer. by rewrite Hfc. }
  assert (∀ filename,
            call_tool lib tool_name filename None σ
            = (inl StageError, <[fresh (dom σ) := []]> σ)) as Hcall.
  { intros filename. by apply call_tool_without_buffer. }
  assert (handle_request lib (JObj m) σ
          = try_except
              (handle_request_try lib (JObj m) (JStr "tools/call") (JObj p)
                 req_id)
              (λ e, M_ret (internal_error lib req_id e)) σ) as Hreq.
  { rewrite handle_request_object. by rewrite Hmethod, Hparams. }
  split_and!.
  - rewrite Hreq. unfold try_except, handle_request_try.
    cbn [json_eq_str String.eqb Ascii.eqb Bool.eqb].
    unfold M_bind, lift. cbn [get]. rewrite Hname, Hbuf. cbn [default].
    destruct (get _ "filename" JNull) as [e|filename]; [by exists e|].
    unfold id. rewrite Hcall. by exists StageError.
  - intros Hargs. split; [done|]. rewrite Hreq.
    unfold try_except, handle_request_try.
    cbn [json_eq_str String.eqb Ascii.eqb Bool.eqb].
    unfold M_bind, lift. cbn [get]. rewrite Hname, Hbuf. cbn [default].
    destruct Hargs as [->|[a ->]]; cbn [default get id];
      unfold id; by rewrite Hcall.
  - intros request bytes. unfold request_file_buffer.
    destruct request as [| | | | |m']; try done.
    destruct (m' !! "fileContent") as [fc|] eqn:E; [|done].
    destruct (b64decode lib fc) as [e|bytes'] eqn:Hdec; [done|].
    cbn [rbind]. intros [= <-]. by exists m', fc.
  - intros. apply call_tool_filename.
Qed.

End FileBuffer.

Lemma call_without_file_content_fails_witness :
  listed (JStr "detect_hidden_content") = true ∧
  no_file_request !! "fileContent" = None ∧
  handle_request (test_libraries []) (JObj no_file_request) ∅
  = (inr (internal_error (test_libraries []) (JNum 7) StageError),
     {[ 0 := [] ]}).
Proof.
  split; [reflexivity|]. split; [reflexivity|].
  destruct (call_without_file_content_fails (test_libraries [])
              no_file_request
              {[ "name" := JStr "detect_hidden_content";
                 "arguments" := JObj {[ "filename" := JStr "book.xlsx" ]} ]}
              (JStr "detect_hidden_content") ∅)
    as (_ & Hstage & _); [reflexivity..|].
  destruct Hstage as [_ Hrun].
  - right. eexists. reflexivity.
  - exact Hrun.
Defined.

(** C9, as stated, fails: with arguments that are not an object the
    handler fails on [arguments.get] before it passes any buffer; the
    adapter is never called (the temporary directory is untouched) and
    the cause reported is not the staging failure. *)
Lemma bad_arguments_fail_before_staging :
  bad_arguments_request !! "fileContent" = None ∧
  handle_request (test_libraries []) (JObj bad_arguments_request) ∅
  = (inr {| Rpc.jsonrpc := "2.0"; Rpc.id := JNum 3;
            Rpc.body :=
              Rpc.error {| Rpc.code := -32603;
                           Rpc.message := "Internal error";
                           Rpc.data := "'int' object has no attribute 'get'"
                        |} |}, ∅) ∧
  handle_request (test_libraries []) (JObj bad_arguments_request) ∅
  ≠ (inr (internal_error (test_libraries []) (JNum 3) StageError),
     {[ 0 := [] ]}).
Proof.
  split_and!.
  - reflexivity.
  - vm_compute. reflexivity.
  - vm_compute. discriminate.
Qed.

(** * Further properties of the analyzer and the server *)

(** ** Temporary files *)

Section TemporaryFiles.

Variable lib : libraries.

Lemma comprehensive_analysis_run filename file_buffer σ :
  ∃ r, comprehensive_analysis lib filename file_buffer σ
       = (r, leftover file_buffer σ).
Proof.
  unfold comprehensive_analysis, M_bind.
  rewrite extract_comments_run.
  destruct (staged lib file_buffer) as [e|wb] eqn:Hst; cbn [rbind];
    [by eexists|].
  rewrite extract_comments_scan_resolved, extract_questions_run, Hst.
  cbn [rbind].
  rewrite extract_questions_scan_resolved, detect_hidden_content_run, Hst.
  cbn [rbind]. rewrite detect_hidden_content_scan_resolved.
  destruct file_buffer as [bytes|]; [by eexists|discriminate Hst].
Qed.

Lemma call_tool_leftover tool_name filename file_buffer σ :
  (call_tool lib tool_name filename file_buffer σ).2
  = if listed tool_name then leftover file_buffer σ else σ.
Proof.
  destruct (listed tool_name) eqn:Hl.
  - destruct (listed_cases _ Hl) as [-> | [-> | [-> | ->]]];
      cbn; unfold M_bind.
    + rewrite extract_comments_run.
      by destruct (rbind _ _).
    + rewrite extract_questions_run.
      by destruct (rbind _ _).
    + rewrite detect_hidden_content_run.
      by destruct (rbind _ _).
    + destruct (comprehensive_analysis_run filename file_buffer σ)
        as [r ->]. by destruct r.
  - by rewrite call_tool_unknown.
Qed.

Lemma handle_request_try_leftover request method params req_id σ :
  (handle_request_try lib request method params req_id σ).2 = σ ∨
  request_file_buffer lib request = inr None ∧
  (handle_request_try lib request method params req_id σ).2
  = <[fresh (dom σ) := []]> σ.
Proof.
  unfold handle_request_try.
  destruct (json_eq_str method "initialize"); [by left|].
  destruct (json_eq_str method "tools/list"); [by left|].
  destruct (json_eq_str method "tools/call"); [|by left].
  unfold M_bind, lift.
  destruct (get params "name" JNull) as [?|tool_name]; [by left|].
  destruct (get params "arguments" (JObj ∅)) as [?|arguments]; [by left|].
  destruct (get arguments "filename" JNull) as [?|filename]; [by left|].
  destruct (request_file_buffer lib request) as [?|file_buffer] eqn:Hbuf;
    [by left|].
  pose proof (call_tool_leftover tool_name filename file_buffer σ) as Hfs.
  destruct (call_tool lib tool_name filename file_buffer σ) as [[e|r] σ'];
    cbn [snd] in *; subst σ';
    (destruct (listed tool_name); [|by left]);
    (destruct file_buffer; [by left|by right]).
Qed.

Lemma handle_request_leftover request σ :
  (handle_request lib request σ).2 = σ ∨
  request_file_buffer lib request = inr None ∧
  (handle_request lib request σ).2 = <[fresh (dom σ) := []]> σ.
Proof.
  destruct request as [| | | | |m]; try by left.
  rewrite handle_request_object. unfold try_except.
  pose proof (handle_request_try_leftover (JObj m)
                (default JNull (m !! "method"))
                (default (JObj ∅) (m !! "params"))
                (default (JNum 0) (m !! "id")) σ) as H.
  by destruct (handle_request_try _ _ _ _ _ _) as [[e|resp] σ'].
Qed.

(** X1. A tool that is given a buffer leaves the temporary directory
    exactly as it found it, whether the buffer loads or not and whatever
    the tool name: the file staged by each pass (three times over for the
    comprehensive analysis) is removed again on every path.  So a request
    that carries a fileContent member never leaves a temporary file
    behind. *)
Theorem staged_file_is_removed σ :
  (∀ tool_name filename bytes,
     (call_tool lib tool_name filename (Some bytes) σ).2 = σ) ∧
  (∀ filename bytes,
     (extract_comments lib filename (Some bytes) σ).2 = σ ∧
     (extract_questions lib filename (Some bytes) σ).2 = σ ∧
     (detect_hidden_content lib filename (Some bytes) σ).2 = σ ∧
     (comprehensive_analysis lib filename (Some bytes) σ).2 = σ) ∧
  (∀ m file_content,
     m !! "fileContent" = Some file_content →
     (handle_request lib (JObj m) σ).2 = σ).
Proof.
  split_and!.
  - intros tool_name filename bytes. rewrite call_tool_leftover.
    by destruct (listed tool_name).
  - intros filename bytes.
    rewrite extract_comments_run, extract_questions_run,
      detect_hidden_content_run.
    destruct (comprehensive_analysis_run filename (Some bytes) σ) as [r ->].
    done.
  - intros m fc Hfc.
    destruct (handle_request_leftover (JObj m) σ) as [H|[Hbuf _]]; [done|].
    unfold request_file_buffer in Hbuf. rewrite Hfc in Hbuf.
    by destruct (b64decode lib fc).
Qed.

Lemma only_empty_added_refl σ : only_empty_added σ σ.
Proof. split; [done|]. intros p content H1 H2. congruence. Qed.

Lemma only_empty_added_trans σ1 σ2 σ3 :
  only_empty_added σ1 σ2 → only_empty_added σ2 σ3 → only_empty_added σ1 σ3.
Proof.
  intros [Hsub1 Hnew1] [Hsub2 Hnew2]. split; [by etrans|].
  intros p content H3 H1.
  destruct (σ2 !! p) as [content'|] eqn:H2.
  - rewrite map_subseteq_spec in Hsub2.
    pose proof (Hsub2 _ _ H2) as H3'. rewrite H3 in H3'.
    injection H3' as ->. by eapply Hnew1.
  - by eapply Hnew2.
Qed.

Lemma only_empty_added_fresh (σ : gmap nat (list byte)) :
  only_empty_added σ (<[fresh (dom σ) := []]> σ).
Proof.
  split.
  - apply insert_subseteq, fresh_path_free.
  - intros p content H Hnone.
    apply lookup_insert_Some in H as [[_ <-]|[_ H]]; [done|congruence].
Qed.

Lemma respond_leftover line σ :
  only_empty_added σ (respond lib line σ).2.
Proof.
  unfold respond, M_bind, lift.
  destruct (loads lib line) as [e|request]; [apply only_empty_added_refl|].
  destruct (handle_request_leftover request σ) as [H|[_ H]];
    destruct (handle_request lib request σ) as [[e|resp] σ'];
    cbn [snd] in *; subst σ';
    (apply only_empty_added_refl || apply only_empty_added_fresh).
Qed.

(** X2. Whatever the input, the server never removes or alters a file of
    the temporary directory that it found there, and every file it leaves
    behind is empty: the only files that stay are the empty ones of tool
    calls that came without fileContent. *)
Theorem main_only_leaves_empty_files stdin σ :
  only_empty_added σ (main lib stdin σ).2.
Proof.
  unfold main.
  assert (only_empty_added σ (main_loop lib stdin σ).2) as H.
  { revert σ. induction stdin as [|line stdin IH]; intros σ; cbn [main_loop].
    - apply only_empty_added_refl.
    - destruct (strip_is_empty line).
      + specialize (IH σ). by destruct (main_loop lib stdin σ).
      + pose proof (respond_leftover line σ) as Hline.
        destruct (respond lib line σ) as [resp σ1]. cbn [snd] in Hline.
        specialize (IH σ1). destruct (main_loop lib stdin σ1) as [tr σ2].
        cbn [snd] in *. by eapply only_empty_added_trans. }
  by destruct (main_loop lib stdin σ).
Qed.

End TemporaryFiles.

(** ** Requests do not influence one another *)

Section Stateless.

Variable lib : libraries.

Lemma call_tool_result_any_directory tool_name filename file_buffer σ σ' :
  (call_tool lib tool_name filename file_buffer σ).1
  = (call_tool lib tool_name filename file_buffer σ').1.
Proof.
  unfold call_tool, comprehensive_analysis.
  repeat (destruct (json_eq_str tool_name _); [
    unfold M_bind;
    rewrite ?extract_comments_run, ?extract_questions_run,
      ?detect_hidden_content_run;
    destruct (staged lib file_buffer) as [e|wb] eqn:Hst; cbn [rbind];
    [reflexivity|];
    rewrite ?extract_comments_scan_resolved,
      ?extract_questions_run, ?Hst; cbn [rbind];
    rewrite ?extract_questions_scan_resolved,
      ?detect_hidden_content_run, ?Hst; cbn [rbind];
    rewrite ?detect_hidden_content_scan_resolved; reflexivity |]).
  reflexivity.
Qed.

Lemma handle_request_try_any_directory request method params req_id σ σ' :
  (handle_request_try lib request method params req_id σ).1
  = (handle_request_try lib request method params req_id σ').1.
Proof.
  unfold handle_request_try.
  destruct (json_eq_str method "initialize"); [done|].
  destruct (json_eq_str method "tools/list"); [done|].
  destruct (json_eq_str method "tools/call"); [|done].
  unfold M_bind, lift.
  destruct (get params "name" JNull) as [?|tool_name]; [done|].
  destruct (get params "arguments" (JObj ∅)) as [?|arguments]; [done|].
  destruct (get arguments "filename" JNull) as [?|filename]; [done|].
  destruct (request_file_buffer lib request) as [?|file_buffer]; [done|].
  pose proof (call_tool_result_any_directory tool_name filename file_buffer
                σ σ') as H.
  destruct (call_tool lib tool_name filename file_buffer σ) as [[e|r] σ1];
    destruct (call_tool lib tool_name filename file_buffer σ') as [[e'|r'] σ2];
    cbn [fst] in *; by simplify_eq.
Qed.

Lemma handle_request_any_directory request σ σ' :
  (handle_request lib request σ).1 = (handle_request lib request σ').1.
Proof.
  destruct request as [| | | | |m]; try done.
  rewrite !handle_request_object. unfold try_except.
  pose proof (handle_request_try_any_directory (JObj m)
                (default JNull (m !! "method"))
                (default (JObj ∅) (m !! "params"))
                (default (JNum 0) (m !! "id")) σ σ') as H.
  destruct (handle_request_try _ _ _ _ _ σ) as [[e|resp] σ1];
    destruct (handle_request_try _ _ _ _ _ σ') as [[e'|resp'] σ2];
    cbn [fst] in *; by simplify_eq.
Qed.

Lemma respond_any_directory line σ σ' :
  (respond lib line σ).1 = (respond lib line σ').1.
Proof.
  unfold respond, M_bind, lift.
  destruct (loads lib line) as [e|request]; [done|].
  pose proof (handle_request_any_directory request σ σ') as H.
  destruct (handle_request lib request σ) as [[e|resp] σ1];
    destruct (handle_request lib request σ') as [[e'|resp'] σ2];
    cbn [fst] in *; by simplify_eq.
Qed.

(** X3. The server keeps no state between requests: the response to a
    line does not depend on the temporary directory, hence not on the
    requests answered before it; the responses [main] writes are, in
    order, the responses each non-blank line gets when it is the only
    request of a fresh process. *)
Theorem main_responses_are_independent stdin σ :
  (∀ line σ', (respond lib line σ).1 = (respond lib line σ').1) ∧
  responses (main lib stdin σ).1
  = (λ line, (respond lib line ∅).1) <$> requests stdin.
Proof.
  split; [intros; apply respond_any_directory|].
  unfold main.
  assert (responses (main_loop lib stdin σ).1
          = (λ line, (respond lib line ∅).1) <$> requests stdin) as H.
  { revert σ. induction stdin as [|line stdin IH]; intros σ;
      cbn [main_loop requests List.filter]; [done|].
    destruct (strip_is_empty line); cbn [negb].
    - specialize (IH σ). by destruct (main_loop lib stdin σ).
    - pose proof (respond_any_directory line σ ∅) as Hline.
      destruct (respond lib line σ) as [resp σ1]. cbn [fst] in Hline.
      specialize (IH σ1). destruct (main_loop lib stdin σ1) as [tr σ2].
      cbn [fst] in *. rewrite fmap_cons. cbn. fold (responses tr).
      by rewrite IH, Hline. }
  by destruct (main_loop lib stdin σ).
Qed.

End Stateless.

(** ** How a tool call ends *)


Section Outcomes.

Variable lib : libraries.




(** X5. A [tools/call] can fail before any tool is called, and then the
    temporary directory is not touched and the response carries code
    -32603 with the message of the first failure, whatever the tool name:
    params that are not an object; else arguments that are not an object;
    else a fileContent member that does not decode.  Absent params count
    as an empty object. *)
Theorem tools_call_fails_before_the_tool m σ :
  m !! "method" = Some (JStr "tools/call") →
  let params := default (JObj ∅) (m !! "params") in
  let req_id := default (JNum 0) (m !! "id") in
  (is_object params = false →
   handle_request lib (JObj m) σ
   = (inr (internal_error lib req_id (AttributeError (type_name params) "get")),
      σ)) ∧
  (∀ p arguments,
     params = JObj p → p !! "arguments" = Some arguments →
     is_object arguments = false →
     handle_request lib (JObj m) σ
     = (inr (internal_error lib req_id
               (AttributeError (type_name arguments) "get")), σ)) ∧
  (∀ p file_content e,
     params = JObj p →
     (p !! "arguments" = None ∨ ∃ a, p !! "arguments" = Some (JObj a)) →
     m !! "fileContent" = Some file_content →
     b64decode lib file_content = inl e →
     handle_request lib (JObj m) σ = (inr (internal_error lib req_id e), σ) ∧
     ((∃ s cause, file_content = JStr s ∧ b64decode_str lib s = inl cause ∧
                  exn_str lib e = cause) ∨
      ((∀ s, file_content ≠ JStr s) ∧
       e = B64TypeError (type_name file_content)))).
Proof.
  intros Hmethod params req_id.
  assert (handle_request lib (JObj m) σ
          = try_except
              (handle_request_try lib (JObj m) (JStr "tools/call") params
                 req_id)
              (λ e, M_ret (internal_error lib req_id e)) σ) as ->.
  { rewrite handle_request_object. by rewrite Hmethod. }
  unfold try_except, handle_request_try.
  cbn [json_eq_str String.eqb Ascii.eqb Bool.eqb].
  unfold M_bind, lift. split_and!.
  - intros Hobj. by destruct params.
  - intros p arguments -> Hargs Hobj. cbn [get]. rewrite Hargs. cbn [default].
    by destruct arguments.
  - intros p file_content e -> Hargs Hfc Hdec. cbn [get]. split.
    + assert (request_file_buffer lib (JObj m) = inl e) as ->.
      { unfold request_file_buffer. by rewrite Hfc, Hdec. }
      by destruct Hargs as [-> | [a ->]].
    + unfold b64decode in Hdec.
      destruct file_content as [| | |s| |];
        try (right; split; [done|by injection Hdec]).
      left. destruct (b64decode_str lib s) as [cause|bytes] eqn:Hs; [|done].
      injection Hdec as <-. by exists s, cause.
Qed.


End Outcomes.

Lemma tools_call_fails_before_the_tool_witness :
  undecodable_request !! "method" = Some (JStr "tools/call") ∧
  handle_request broken_libraries (JObj undecodable_request) ∅
  = (inr {| Rpc.jsonrpc := "2.0"; Rpc.id := JStr "q-1";
            Rpc.body :=
              Rpc.error {| Rpc.code := -32603;
                           Rpc.message := "Internal error";
                           Rpc.data := "Incorrect padding" |} |}, ∅).
Proof.
  split; [reflexivity|].
  destruct (tools_call_fails_before_the_tool broken_libraries
              undecodable_request ∅) as (_ & _ & Hdecode); [reflexivity|].
  destruct (Hdecode {[ "arguments" := JObj ∅ ]} (JStr "@@")
              (DecodeError "Incorrect padding")) as [Hrun _];
    [reflexivity | right; by eexists | reflexivity | reflexivity |].
  exact Hrun.
Defined.

(** ** The comments report *)

Lemma comments_counts_sum (l : list (string * Worksheet)) :
  sum_list ((λ s, length (sheet_comments s.2)) <$> l)
  = sum_list (Comments.comment_count <$> omap comments_entry_of l).
Proof.
  induction l as [|[name ws] l IH]; [done|].
  rewrite fmap_cons. simpl (sum_list (_ :: _)). rewrite IH.
  destruct (nonempty (sheet_comments ws)) eqn:Hne.
  - by rewrite (omap_cons_Some _ _ _ _ (comments_entry_of_Some name ws Hne)).
  - rewrite (omap_cons_None _ _ _ (comments_entry_of_None name ws Hne)).
    by rewrite (nonempty_false_length _ Hne).
Qed.

Lemma cell_comment_Some ws r c cm :
  openpyxl.comment (cell ws r c) = Some cm →
  ∃ v, _cells ws !! (r, c) = Some (v, Some cm) ∧ value (cell ws r c) = v.
Proof.
  unfold cell. destruct (_cells ws !! (r, c)) as [[v cm']|]; cbn; [|done].
  intros ->. by exists v.
Qed.

Section CommentsPass.

Variable lib : libraries.

(** X6. [extract_comments] reports the commented cells of the bounding
    box and nothing else.  Every worksheet entry lists, in visiting order
    (row by row, left to right), one record per visited cell that has a
    comment, and has at least one record.  Every populated cell with a
    comment has its record in the entry of its sheet; conversely every
    record stems from a populated cell with a comment inside the
    bounding box, and gives its coordinate, the text of the comment, the
    author (Unknown when the comment has none) and the value as text
    (empty when the value is falsy).  The total is the sum of the
    entries' counts. *)
Theorem extract_comments_reports_commented_cells filename bytes wb σ :
  load_workbook lib bytes = inr wb →
  ∃ r,
    (extract_comments lib filename (Some bytes) σ).1 = inr r ∧
    Comments.filename r = filename ∧
    (∀ e, e ∈ Comments.worksheets r →
       ∃ ws, getitem wb (Comments.sheet e) = inr ws ∧
             Comments.comments e
             = omap (λ c, comment_entry c <$> openpyxl.comment c)
                    (visited ws) ∧
             Comments.comments e ≠ []) ∧
    (∀ name ws rw cl v cm,
       name ∈ sheetnames wb → getitem wb name = inr ws →
       _cells ws !! (rw, cl) = Some (v, Some cm) → 1 ≤ rw → 1 ≤ cl →
       ∃ e, e ∈ Comments.worksheets r ∧ Comments.sheet e = name ∧
            comment_entry (cell ws rw cl) cm ∈ Comments.comments e) ∧
    (∀ e x,
       e ∈ Comments.worksheets r → x ∈ Comments.comments e →
       ∃ ws rw cl v cm,
         getitem wb (Comments.sheet e) = inr ws ∧
         1 ≤ rw ≤ max_row ws ∧ 1 ≤ cl ≤ max_column ws ∧
         _cells ws !! (rw, cl) = Some (v, Some cm) ∧
         Comments.cell x = get_column_letter cl +:+ pretty rw ∧
         Comments.comment x = text cm ∧
         Comments.author x = default "Unknown"%string (author cm) ∧
         Comments.value x = if truthy v then py_str v else ""%string) ∧
    Comments.total_comments r
      = sum_list (Comments.comment_count <$> Comments.worksheets r).
Proof.
  intros Hload. eexists. split; [by apply extract_comments_loaded|].
  cbn [Comments.worksheets Comments.total_comments Comments.filename].
  assert (∀ e, e ∈ omap comments_entry_of (resolve wb (sheetnames wb)) →
            ∃ ws, getitem wb (Comments.sheet e) = inr ws ∧
                  Comments.comments e = sheet_comments ws ∧
                  Comments.comments e ≠ []) as Hentry.
  { intros e ([name ws] & Hin & He)%list_elem_of_omap.
    apply resolve_getitem in Hin.
    unfold comments_entry_of in He. cbn [fst snd] in He.
    destruct (sheet_comments ws) as [|x xs] eqn:Hx; [done|].
    cbn [nonempty] in He. injection He as <-. cbn.
    exists ws. by rewrite Hx. }
  split_and!.
  - done.
  - intros e He. destruct (Hentry e He) as (ws & Hws & Hcs & Hne).
    exists ws. by rewrite <- sheet_comments_visited.
  - intros name ws rw cl v cm Hname Hws Hcell Hrw Hcl.
    assert (comment_entry (cell ws rw cl) cm ∈ sheet_comments ws) as Hin.
    { rewrite sheet_comments_visited. apply list_elem_of_omap.
      exists (cell ws rw cl). split; [by eapply populated_visited|].
      by destruct (cell_value_Some _ _ _ _ _ Hcell) as [_ ->]. }
    assert (nonempty (sheet_comments ws) = true) as Hne.
    { destruct (sheet_comments ws); [by apply elem_of_nil in Hin|done]. }
    eexists. split_and!.
    + apply list_elem_of_omap. exists (name, ws).
      split; [by apply resolve_elem_of|].
      by apply comments_entry_of_Some.
    + done.
    + done.
  - intros e x He Hx. destruct (Hentry e He) as (ws & Hws & Hcs & _).
    rewrite Hcs, sheet_comments_visited in Hx.
    apply list_elem_of_omap in Hx as (c & Hc & Hentry_c).
    apply elem_of_visited in Hc as (rw & cl & Hrw & Hcl & ->).
    destruct (openpyxl.comment (cell ws rw cl)) as [cm|] eqn:Hcm; [|done].
    injection Hentry_c as <-.
    destruct (cell_comment_Some _ _ _ _ Hcm) as (v & Hcell & Hv).
    exists ws, rw, cl, v, cm. split_and!; try done; try lia.
    + unfold comment_entry, coordinate. cbn [Comments.cell].
      by rewrite cell_row, cell_column.
    + unfold comment_entry. cbn [Comments.value]. by rewrite Hv.
  - apply comments_counts_sum.
Qed.

End CommentsPass.

Lemma extract_comments_reports_commented_cells_witness :
  load_workbook (test_libraries [commented_sheet]) [] = inr [commented_sheet] ∧
  ∃ r,
    (extract_comments (test_libraries [commented_sheet])
       (JStr "book.xlsx") (Some []) ∅).1 = inr r ∧
    Comments.total_comments r
      = sum_list (Comments.comment_count <$> Comments.worksheets r).
Proof.
  split; [reflexivity|].
  destruct (extract_comments_reports_commented_cells
              (test_libraries [commented_sheet]) (JStr "book.xlsx") []
              [commented_sheet] ∅) as (r & Hrun & _ & _ & _ & _ & Htotal);
    [reflexivity|].
  by exists r.
Defined.

(** ** Which sheets a report lists *)

Lemma omap_sum_list {X E} (count : X → nat) (entry : X → option E)
    (l : list X) :
  (∀ x, entry x = None ↔ count x = 0) →
  (sum_list (count <$> l) = 0 ↔ omap entry l = []) ∧
  length (omap entry l) ≤ sum_list (count <$> l).
Proof.
  intros Hentry. induction l as [|x l [IH1 IH2]]; [done|].
  rewrite fmap_cons. cbn [sum_list omap list_omap].
  change (id (count x)) with (count x).
  destruct (entry x) as [e|] eqn:He.
  - assert (count x ≠ 0) as Hx.
    { intros Hx%Hentry. congruence. }
    split; [split; [lia|done]|]. cbn [length]. lia.
  - apply Hentry in He. rewrite He. cbn [Nat.add]. by split.
Qed.

Lemma comments_entry_of_count s :
  comments_entry_of s = None ↔ length (sheet_comments s.2) = 0.
Proof. unfold comments_entry_of. by destruct (sheet_comments s.2). Qed.

Lemma questions_entry_of_count s :
  questions_entry_of s = None ↔ length (sheet_questions s.2) = 0.
Proof. unfold questions_entry_of. by destruct (sheet_questions s.2). Qed.

Lemma has_commented_cell_scan ws :
  bool_decide (has_commented_cell ws) = nonempty (sheet_comments ws).
Proof.
  destruct (nonempty (sheet_comments ws)) eqn:Hne.
  - apply bool_decide_eq_true.
    destruct (sheet_comments ws) as [|x xs] eqn:Hx; [done|].
    assert (x ∈ sheet_comments ws) as Hin by (rewrite Hx; left).
    rewrite sheet_comments_visited in Hin.
    apply list_elem_of_omap in Hin as (c & Hc & Hentry).
    apply elem_of_visited in Hc as (rw & cl & Hrw & Hcl & ->).
    destruct (openpyxl.comment (cell ws rw cl)) as [cm|] eqn:Hcm; [|done].
    destruct (cell_comment_Some _ _ _ _ Hcm) as (v & Hcell & _).
    exists (rw, cl), (v, Some cm). cbn. split_and!; [done|lia|lia|by eexists].
  - apply bool_decide_eq_false.
    intros ([rw cl] & [v cm'] & Hcell & Hrw & Hcl & [cm Hcm]).
    cbn in Hrw, Hcl, Hcm. subst cm'.
    assert (comment_entry (cell ws rw cl) cm ∈ sheet_comments ws) as Hin.
    { rewrite sheet_comments_visited. apply list_elem_of_omap.
      exists (cell ws rw cl). split; [by eapply populated_visited|].
      by destruct (cell_value_Some _ _ _ _ _ Hcell) as [_ ->]. }
    destruct (sheet_comments ws); [by apply elem_of_nil in Hin|done].
Qed.

Lemma has_question_cell_scan ws :
  bool_decide (has_question_cell ws) = nonempty (sheet_questions ws).
Proof.
  destruct (nonempty (sheet_questions ws)) eqn:Hne.
  - apply bool_decide_eq_true.
    destruct (sheet_questions ws) as [|x xs] eqn:Hx; [done|].
    assert (x ∈ sheet_questions ws) as Hin by (rewrite Hx; left).
    rewrite sheet_questions_visited in Hin.
    apply list_elem_of_fmap in Hin as (c & _ & Hc).
    apply list_elem_of_In, filter_In in Hc as [Hc Hq].
    apply list_elem_of_In, elem_of_visited in Hc as (rw & cl & Hrw & Hcl & ->).
    unfold is_question in Hq. apply andb_true_iff in Hq as [Hv Hmark].
    destruct (_cells ws !! (rw, cl)) as [[v cm]|] eqn:Hcell.
    + destruct (cell_value_Some _ _ _ _ _ Hcell) as [Hvalue _].
      rewrite Hvalue in Hv, Hmark.
      exists (rw, cl), (v, cm). cbn. split_and!; [done|lia|lia|done|done].
    + by rewrite (cell_value_None _ _ _ Hcell) in Hv.
  - apply bool_decide_eq_false.
    intros ([rw cl] & [v cm] & Hcell & Hrw & Hcl & Hv & Hmark).
    cbn in Hrw, Hcl, Hv, Hmark.
    assert (question_entry ws (cell ws rw cl) ∈ sheet_questions ws) as Hin.
    { rewrite sheet_questions_visited. apply list_elem_of_fmap_2.
      apply list_elem_of_In, filter_In. split.
      - apply list_elem_of_In. by eapply populated_visited.
      - unfold is_question.
        destruct (cell_value_Some _ _ _ _ _ Hcell) as [-> _].
        by rewrite Hv, Hmark. }
    destruct (sheet_questions ws); [by apply elem_of_nil in Hin|done].
Qed.

Lemma comments_sheets_filter wb names :
  Forall (λ n, n ∈ sheetnames wb) names →
  Comments.sheet <$> omap comments_entry_of (resolve wb names)
  = List.filter (has_comments wb) names.
Proof.
  induction 1 as [|name names Hname Hall IH]; [done|].
  destruct (getitem_sheetnames wb name Hname) as [ws Hws].
  rewrite (resolve_cons _ _ _ _ Hws). cbn [List.filter].
  unfold has_comments at 1. rewrite Hws, has_commented_cell_scan.
  destruct (nonempty (sheet_comments ws)) eqn:Hne.
  - rewrite (omap_cons_Some _ _ _ _ (comments_entry_of_Some name ws Hne)).
    rewrite fmap_cons. cbn [Comments.sheet]. by rewrite IH.
  - by rewrite (omap_cons_None _ _ _ (comments_entry_of_None name ws Hne)).
Qed.

Lemma questions_sheets_filter wb names :
  Forall (λ n, n ∈ sheetnames wb) names →
  Questions.sheet <$> omap questions_entry_of (resolve wb names)
  = List.filter (has_questions wb) names.
Proof.
  induction 1 as [|name names Hname Hall IH]; [done|].
  destruct (getitem_sheetnames wb name Hname) as [ws Hws].
  rewrite (resolve_cons _ _ _ _ Hws). cbn [List.filter].
  unfold has_questions at 1. rewrite Hws, has_question_cell_scan.
  destruct (nonempty (sheet_questions ws)) eqn:Hne.
  - rewrite (omap_cons_Some _ _ _ _ (questions_entry_of_Some name ws Hne)).
    rewrite fmap_cons. cbn [Questions.sheet]. by rewrite IH.
  - by rewrite (omap_cons_None _ _ _ (questions_entry_of_None name ws Hne)).
Qed.

Section ListedSheets.

Variable lib : libraries.

(** X7. The comments report lists exactly the sheets that have at least
    one commented cell, and the questions report exactly the sheets that
    have at least one question cell, both in workbook order; a sheet
    without such a cell gets no entry at all.  So every entry has a count
    of at least 1, a report has no more entries than its total, and its
    total is 0 exactly when its list of worksheets is empty. *)
Theorem reports_list_sheets_with_records filename bytes wb σ :
  load_workbook lib bytes = inr wb →
  ∃ c q,
    (extract_comments lib filename (Some bytes) σ).1 = inr c ∧
    (extract_questions lib filename (Some bytes) σ).1 = inr q ∧
    Comments.sheet <$> Comments.worksheets c
      = List.filter (has_comments wb) (sheetnames wb) ∧
    Questions.sheet <$> Questions.worksheets q
      = List.filter (has_questions wb) (sheetnames wb) ∧
    Forall (λ e, 1 ≤ Comments.comment_count e) (Comments.worksheets c) ∧
    Forall (λ e, 1 ≤ Questions.question_count e) (Questions.worksheets q) ∧
    length (Comments.worksheets c) ≤ Comments.total_comments c ∧
    length (Questions.worksheets q) ≤ Questions.total_questions q ∧
    (Comments.total_comments c = 0 ↔ Comments.worksheets c = []) ∧
    (Questions.total_questions q = 0 ↔ Questions.worksheets q = []).
Proof.
  intros Hload. eexists _, _.
  split; [by apply extract_comments_loaded|].
  split; [by apply extract_questions_loaded|].
  cbn [Comments.worksheets Comments.total_comments
       Questions.worksheets Questions.total_questions].
  pose proof (omap_sum_list (λ s, length (sheet_comments s.2))
                comments_entry_of (resolve wb (sheetnames wb))
                comments_entry_of_count) as [Hc0 Hcle].
  pose proof (omap_sum_list (λ s, length (sheet_questions s.2))
                questions_entry_of (resolve wb (sheetnames wb))
                questions_entry_of_count) as [Hq0 Hqle].
  split_and!; try done.
  - apply comments_sheets_filter, sheetnames_all.
  - apply questions_sheets_filter, sheetnames_all.
  - apply Forall_forall. intros e ([name ws] & _ & He)%list_elem_of_omap.
    unfold comments_entry_of in He. cbn [snd fst] in He.
    destruct (sheet_comments ws) as [|x xs]; [done|].
    injection He as <-. cbn. lia.
  - apply Forall_forall. intros e ([name ws] & _ & He)%list_elem_of_omap.
    unfold questions_entry_of in He. cbn [snd fst] in He.
    destruct (sheet_questions ws) as [|x xs]; [done|].
    injection He as <-. cbn. lia.
Qed.

End ListedSheets.

Lemma reports_list_sheets_with_records_witness :
  load_workbook (test_libraries [question_sheet; commented_sheet]) []
  = inr [question_sheet; commented_sheet] ∧
  ∃ c q,
    (extract_comments (test_libraries [question_sheet; commented_sheet])
       JNull (Some []) ∅).1 = inr c ∧
    (extract_questions (test_libraries [question_sheet; commented_sheet])
       JNull (Some []) ∅).1 = inr q ∧
    Comments.sheet <$> Comments.worksheets c
      = List.filter (has_comments [question_sheet; commented_sheet])
          (sheetnames [question_sheet; commented_sheet]) ∧
    Questions.sheet <$> Questions.worksheets q
      = List.filter (has_questions [question_sheet; commented_sheet])
          (sheetnames [question_sheet; commented_sheet]).
Proof.
  split; [reflexivity|].
  destruct (reports_list_sheets_with_records
              (test_libraries [question_sheet; commented_sheet]) JNull []
              [question_sheet; commented_sheet] ∅)
    as (c & q & Hc & Hq & Hcs & Hqs & _); [reflexivity|].
  by exists c, q.
Defined.

(** ** Hidden rows and columns stay inside the bounding box *)

Lemma sum_list_fmap_le {X} (f g : X → nat) (l : list X) :
  (∀ x, f x ≤ g x) → sum_list (f <$> l) ≤ sum_list (g <$> l).
Proof.
  intros Hle. induction l as [|x l IH]; [done|].
  rewrite !fmap_cons. cbn [sum_list].
  change (id (f x)) with (f x). change (id (g x)) with (g x).
  specialize (Hle x). cbn in *. lia.
Qed.

Lemma elem_of_take_whole {A} (n : nat) (l : list A) (x : A) :
  x ∈ take n l → x ∈ l.
Proof. apply subseteq_take. Qed.

Lemma hidden_rows_of_length ws : length (hidden_rows_of ws) ≤ max_row ws.
Proof.
  rewrite hidden_rows_of_filter.
  etrans; [apply filter_length_le|]. by rewrite length_seq.
Qed.

Lemma hidden_columns_of_length ws :
  length (hidden_columns_of ws) ≤ max_column ws.
Proof.
  rewrite hidden_columns_of_filter.
  etrans; [apply filter_length_le|]. by rewrite length_fmap, length_seq.
Qed.

Lemma elem_of_hidden_rows_of ws rw :
  rw ∈ hidden_rows_of ws ↔
  1 ≤ rw ≤ max_row ws ∧ row_dimensions ws !! rw = Some true.
Proof.
  rewrite hidden_rows_of_filter, list_elem_of_In, filter_In.
  rewrite <- list_elem_of_In, elem_of_seq. unfold row_hidden.
  destruct (row_dimensions ws !! rw) as [[|]|]; cbn; split;
    intros [? ?]; (done || (split; [lia|done])).
Qed.

Lemma elem_of_hidden_columns_of ws label :
  label ∈ hidden_columns_of ws ↔
  (∃ cl, 1 ≤ cl ≤ max_column ws ∧ label = get_column_letter cl) ∧
  column_dimensions ws !! label = Some true.
Proof.
  rewrite hidden_columns_of_filter, list_elem_of_In, filter_In.
  rewrite <- list_elem_of_In, list_elem_of_fmap. unfold column_hidden.
  setoid_rewrite elem_of_seq.
  destruct (column_dimensions ws !! label) as [[|]|]; cbn; split;
    intros [(cl & ? & ?) ?]; try done;
    (split; [exists cl; split; (done || lia)|done]).
Qed.

Lemma hidden_rows_of_NoDup ws : NoDup (hidden_rows_of ws).
Proof.
  rewrite hidden_rows_of_filter. apply NoDup_ListNoDup, List.NoDup_filter.
  apply NoDup_ListNoDup, NoDup_seq.
Qed.

Lemma empty_sheet_box ws : _cells ws = ∅ → max_row ws = 1 ∧ max_column ws = 1.
Proof.
  intros Hempty. unfold max_row, max_column.
  by rewrite Hempty, map_to_list_empty.
Qed.

Section BoundingBox.

Variable lib : libraries.

(** X9. [detect_hidden_content] looks for hidden rows and columns inside
    the bounding box of each sheet only.  In every worksheet entry the
    hidden counts do not exceed the row and column counts, and the rows
    listed are distinct and lie between 1 and the row count.  A row is
    listed only if its dimension is recorded with the hidden flag set,
    and a column label only if it is the label of a column of the box
    whose dimension is recorded as hidden; a hidden row below the last
    populated row is never reported.  While no more than 50 rows are
    hidden, every hidden row of the box is listed.  A sheet without cells
    is reported as 1 row by 1 column.  The totals of the report do not
    exceed the sums of the row and column counts. *)
Theorem detect_hidden_content_stays_in_bounding_box filename bytes wb σ :
  load_workbook lib bytes = inr wb →
  ∃ r,
    (detect_hidden_content lib filename (Some bytes) σ).1 = inr r ∧
    Hidden.filename r = filename ∧
    Forall (λ e, Hidden.hidden_row_count e ≤ Hidden.row_count e ∧
                 Hidden.hidden_column_count e ≤ Hidden.column_count e ∧
                 Forall (λ rw, 1 ≤ rw ≤ Hidden.row_count e)
                        (Hidden.hidden_rows e) ∧
                 NoDup (Hidden.hidden_rows e))
           (Hidden.worksheets r) ∧
    (∀ i name, sheetnames wb !! i = Some name →
       ∃ ws e,
         getitem wb name = inr ws ∧
         Hidden.worksheets r !! i = Some e ∧
         Hidden.row_count e = max_row ws ∧
         Hidden.column_count e = max_column ws ∧
         (∀ rw, rw ∈ Hidden.hidden_rows e →
                row_dimensions ws !! rw = Some true) ∧
         (∀ rw, max_row ws < rw → rw ∉ Hidden.hidden_rows e) ∧
         (∀ rw, 1 ≤ rw ≤ max_row ws → row_dimensions ws !! rw = Some true →
                Hidden.hidden_row_count e ≤ 50 →
                rw ∈ Hidden.hidden_rows e) ∧
         (∀ label, label ∈ Hidden.hidden_columns e →
                   column_dimensions ws !! label = Some true ∧
                   ∃ cl, 1 ≤ cl ≤ max_column ws ∧
                         label = get_column_letter cl) ∧
         (_cells ws = ∅ →
          Hidden.row_count e = 1 ∧ Hidden.column_count e = 1)) ∧
    Hidden.total_hidden_rows r
      ≤ sum_list (Hidden.row_count <$> Hidden.worksheets r) ∧
    Hidden.total_hidden_columns r
      ≤ sum_list (Hidden.column_count <$> Hidden.worksheets r).
Proof.
  intros Hload. eexists. split; [by apply detect_hidden_content_loaded|].
  cbn [Hidden.worksheets Hidden.total_hidden_rows
       Hidden.total_hidden_columns Hidden.filename].
  split_and!.
  - done.
  - apply Forall_fmap, Forall_forall. intros [name ws] _.
    unfold sheet_data. cbn.
    pose proof (hidden_rows_of_length ws).
    pose proof (hidden_columns_of_length ws).
    split_and!; [done..| |].
    + apply Forall_forall. intros rw Hrw%elem_of_take_whole.
      by apply elem_of_hidden_rows_of in Hrw as [? _].
    + apply (sublist_NoDup _ _ (hidden_rows_of_NoDup ws)), sublist_take.
  - intros i name Hi.
    destruct (resolve_lookup wb _ i name (sheetnames_all wb) Hi)
      as (ws & Hws & Hres).
    exists ws, (sheet_data name ws). rewrite list_lookup_fmap, Hres.
    unfold sheet_data. cbn. split_and!; try done.
    + intros rw Hrw%elem_of_take_whole.
      by apply elem_of_hidden_rows_of in Hrw as [_ ?].
    + intros rw Hlt Hrw%elem_of_take_whole.
      apply elem_of_hidden_rows_of in Hrw as [? _]. lia.
    + intros rw Hrw Hflag Hfew. rewrite take_ge by done.
      by apply elem_of_hidden_rows_of.
    + intros label Hlabel%elem_of_take_whole.
      by apply elem_of_hidden_columns_of in Hlabel as [? ?].
    + apply empty_sheet_box.
  - rewrite <- list_fmap_compose. apply sum_list_fmap_le.
    intros [name ws]. apply hidden_rows_of_length.
  - rewrite <- list_fmap_compose. apply sum_list_fmap_le.
    intros [name ws]. apply hidden_columns_of_length.
Qed.

End BoundingBox.

Lemma detect_hidden_content_stays_in_bounding_box_witness :
  load_workbook (test_libraries [row_five_hidden_sheet]) []
  = inr [row_five_hidden_sheet] ∧
  ∃ r,
    (detect_hidden_content (test_libraries [row_five_hidden_sheet])
       JNull (Some []) ∅).1 = inr r ∧
    Hidden.total_hidden_rows r
      ≤ sum_list (Hidden.row_count <$> Hidden.worksheets r).
Proof.
  split; [reflexivity|].
  destruct (detect_hidden_content_stays_in_bounding_box
              (test_libraries [row_five_hidden_sheet]) JNull []
              [row_five_hidden_sheet] ∅)
    as (r & Hrun & _ & _ & _ & Hrows & _); [reflexivity|].
  by exists r.
Defined.
